(** * Course-pace duration utilities

    A shallow embedding of the utilities of the course-pace editor
    ([utils/utils]: the pace-duration arithmetic, the item-duration
    weighting and the pace validator) together with the properties stated
    about them.

    Conventions of the embedding.
    - A JavaScript [number] holding a day count, a duration or a weight is an
      integer of [Z], as it is exactly within the safe integers; only the
      quotient and the remainder taken by a caller supplied divisor can
      leave the integers, and they get the type [number] below.
    - A moment (and a date string, which the code always wraps with
      [moment(...)]) is the instant it denotes, a valid date: milliseconds
      of local civil time since the epoch, in a zone with a constant
      offset.
    - The helpers of [date_stuff/date_helpers] and
      [date_stuff/pace_due_dates_calculator] are collaborators whose source
      is not part of this development: they are the operations of the
      classes [DateHelpers] and [PaceDueDatesCalculator], and the functions
      that call them are stated over any instance. *)

From stdpp Require Import base numbers option list strings gmap fin_maps.

Local Open Scope Z_scope.

(** ** Data model *)

(** [PaceDuration]: the [{weeks, days}] pair. *)
Record PaceDuration := { weeks : Z; days : Z }.

(** [AssignmentWeightening]: an optional weight per item category. *)
Record AssignmentWeightening := {
  assignment : option Z;
  discussion : option Z;
  quiz : option Z;
  page : option Z
}.

(** [CoursePaceItem].  The interface is declared in [../types]; the fields
    this code reads are spelled out and the remaining ones are carried by
    [rest], whose type is left open. *)
Record CoursePaceItem (R : Type) := {
  id : string;
  module_item_type : string;
  duration : Z;
  rest : R
}.
Arguments id {R} _.
Arguments module_item_type {R} _.
Arguments duration {R} _.
Arguments rest {R} _.

(** ** Duration converter *)

(** [Math.floor(calendarDays / 7)] is the floor quotient, JavaScript's [%]
    is the remainder that takes the sign of the dividend.  This is the
    reading on the integers, which is that of the code on the safe
    integers; [Double.calendarDaysToPaceDuration] below carries the
    rounding of the quotient that shows beyond them. *)
Definition calendarDaysToPaceDuration (calendarDays : Z) : PaceDuration :=
  {| weeks := calendarDays / 7; days := Z.rem calendarDays 7 |}.

(** ** Item duration weighting *)

(** The inner [getDuration]: a [switch] on the item type. *)
Definition getDuration (assignmentWeightedDuration : AssignmentWeightening)
    (itemType : string) : option Z :=
  if String.eqb itemType "Assignment" then assignment assignmentWeightedDuration
  else if String.eqb itemType "DiscussionTopic" then discussion assignmentWeightedDuration
  else if String.eqb itemType "Quizzes::Quiz" then quiz assignmentWeightedDuration
  else if String.eqb itemType "Page" then page assignmentWeightedDuration
  else None.

(** [x || y] on [number | undefined]: [undefined] and [0] are falsy. *)
Definition falsy_or (x : option Z) (y : Z) : Z :=
  match x with
  | Some v => if v =? 0 then y else v
  | None => y
  end.

(** The callback of [map]: [{...item, duration}]. *)
Definition withDuration {R} (w : AssignmentWeightening)
    (item : CoursePaceItem R) : CoursePaceItem R :=
  let duration' := falsy_or (getDuration w (module_item_type item)) (duration item) in
  {| id := id item;
     module_item_type := module_item_type item;
     duration := duration';
     rest := rest item |}.

Definition calculatePaceItemDuration {R} (coursePaceItem : list (CoursePaceItem R))
    (assignmentWeightedDuration : AssignmentWeightening) : list (CoursePaceItem R) :=
  map (withDuration assignmentWeightedDuration) coursePaceItem.

(** The four categories that have a weight. *)
Definition weighted_types : list string :=
  ["Assignment"; "DiscussionTopic"; "Quizzes::Quiz"; "Page"].

(** The entry of the weighting that corresponds to a category, as a
    relation read off the interface rather than off the [switch]. *)
Inductive weighting_entry (w : AssignmentWeightening) : string → option Z → Prop :=
  | entry_assignment : weighting_entry w "Assignment" (assignment w)
  | entry_discussion : weighting_entry w "DiscussionTopic" (discussion w)
  | entry_quiz : weighting_entry w "Quizzes::Quiz" (quiz w)
  | entry_page : weighting_entry w "Page" (page w).

(** ** Moments *)

(** A moment is an instant in milliseconds; see the conventions above. *)
Abbreviation Moment := Z (only parsing).

Definition msPerDay : Z := 86400000.

(** [m.startOf('day')], [m.endOf('day')], [m.add(n, 'days')] and
    [a.isAfter(b)]. *)
Definition startOf_day (m : Moment) : Moment := m - m mod msPerDay.
Definition endOf_day (m : Moment) : Moment := startOf_day m + (msPerDay - 1).
Definition add_days (m : Moment) (n : Z) : Moment := m + n * msPerDay.
Definition isAfter (a b : Moment) : bool := b <? a.

(** The index of the calendar day a moment falls on. *)
Definition dayIndex (m : Moment) : Z := m / msPerDay.

(** [moment()] reads the clock: [moment(undefined)] and [moment.max([])]
    both evaluate to the current instant. *)
Class Clock := { now : Moment }.

(** [moment(x)] for [x : string | undefined]. *)
Definition moment {clock : Clock} (x : option Moment) : Moment := default now x.

(** [moment.max(moments)], as moment's [pickBy('isAfter', moments)]: the
    first element, replaced by each later element that is after it. *)
Definition moment_max {clock : Clock} (moments : list Moment) : Moment :=
  match moments with
  | [] => now
  | m :: ms => fold_left (λ res x, if isAfter x res then x else res) ms m
  end.

(** [Object.values(o)] of an object used as a map from item ids to dates:
    its values, in the order of the map, which is not the order of
    JavaScript (integer-like keys ascending, then the order of insertion);
    what is stated of it does not depend on the order. *)
Definition Object_values {A} (o : gmap string A) : list A := (map_to_list o).*2.

(** ** Course paces *)

Module BlackoutDate.
Record t := {
  id : string;
  course_id : string;
  event_title : string;
  start_date : Moment;
  end_date : Moment
}.
End BlackoutDate.

(** A module of a pace and the pace itself, with the fields the utilities
    read. *)
Record PaceModule (R : Type) := { items : list (CoursePaceItem R) }.
Arguments items {R} _.

Record CoursePace (R : Type) := {
  start_date : option Moment;
  time_to_complete_calendar_days : Z;
  exclude_weekends : bool;
  selected_days_to_skip : list string;
  modules : list (PaceModule R)
}.
Arguments start_date {R} _.
Arguments time_to_complete_calendar_days {R} _.
Arguments exclude_weekends {R} _.
Arguments selected_days_to_skip {R} _.
Arguments modules {R} _.

(** ** Collaborators *)

(** The part of [date_stuff/date_helpers] the utilities call. *)
Class DateHelpers := {
  rawDaysBetweenInclusive : Moment → Moment → Z;
  addDays : Moment → Z → bool → list string → list BlackoutDate.t → Moment;
  daysBetween : Moment → Moment → bool → list string → list BlackoutDate.t → Z
}.

(** [date_stuff/pace_due_dates_calculator]: due dates keyed by item. *)
Class PaceDueDatesCalculator (R : Type) := {
  getDueDates : list (CoursePaceItem R) → bool → list string →
                list BlackoutDate.t → option Moment → gmap string Moment
}.

(** ** Numbers that leave the integers *)

(** The value of a division by a divisor the caller chooses. *)
Inductive number := Int (z : Z) | NaN | Infinity | NegInfinity.

(** [Math.floor(a / b)] on integers. *)
Definition floor_div (a b : Z) : number :=
  if b =? 0 then
    if a =? 0 then NaN else if 0 <? a then Infinity else NegInfinity
  else Int (a / b).

(** [a % b] on integers. *)
Definition js_rem (a b : Z) : number :=
  if b =? 0 then NaN else Int (Z.rem a b).

Module ItemsDuration.
Record t := { duration : number; remainder : number }.
End ItemsDuration.

(** ** Pace duration and pace validator *)

Section Utils.
Context {R : Type} {clock : Clock} {helpers : DateHelpers}
  {calculator : PaceDueDatesCalculator R}.

Definition calculatePaceDuration (startDate endDate : Moment) : PaceDuration :=
  let planDays := rawDaysBetweenInclusive startDate endDate in
  calendarDaysToPaceDuration planDays.

Definition isTimeToCompleteCalendarDaysValid (coursePace : CoursePace R)
    (coursePaceItem : list (CoursePaceItem R))
    (blackoutDates : list BlackoutDate.t) : bool :=
  let paceDueDates :=
    getDueDates coursePaceItem (exclude_weekends coursePace)
      (selected_days_to_skip coursePace) blackoutDates (start_date coursePace) in
  let endDateValue :=
    moment_max ((λ x, moment (Some x)) <$> Object_values paceDueDates) in
  let startDateMoment := startOf_day (moment (start_date coursePace)) in
  let calendarDays := rawDaysBetweenInclusive startDateMoment endDateValue in
  calendarDays <=? time_to_complete_calendar_days coursePace.

Definition getTimeToCompleteCalendarDaysFromItemsDuration
    (coursePace : CoursePace R) (blackOutDates : list BlackoutDate.t) : Z :=
  let coursePaceItems := flat_map items (modules coursePace) in
  let paceDueDates :=
    getDueDates coursePaceItems (exclude_weekends coursePace)
      (selected_days_to_skip coursePace) blackOutDates (start_date coursePace) in
  let endDateValue :=
    moment_max ((λ x, moment (Some x)) <$> Object_values paceDueDates) in
  let startDateMoment := startOf_day (moment (start_date coursePace)) in
  rawDaysBetweenInclusive startDateMoment endDateValue - 1.

Definition getItemsDurationFromTimeToComplete (coursePace : CoursePace R)
    (blackOutDays : list BlackoutDate.t) (calendarDays itemsLength : Z)
    : ItemsDuration.t :=
  if (calendarDays <? 1) || bool_decide (start_date coursePace = None) then
    {| ItemsDuration.duration := Int 0; ItemsDuration.remainder := Int 0 |}
  else
    let startDate :=
      addDays (moment (start_date coursePace)) 1 (exclude_weekends coursePace)
        (selected_days_to_skip coursePace) blackOutDays in
    let endDate :=
      endOf_day (add_days (moment (start_date coursePace)) calendarDays) in
    if isAfter (moment (Some startDate)) endDate then
      {| ItemsDuration.duration := Int 0; ItemsDuration.remainder := Int 0 |}
    else
      let totalDuration :=
        daysBetween startDate endDate (exclude_weekends coursePace)
          (selected_days_to_skip coursePace) blackOutDays in
      let itemsDuration := floor_div totalDuration itemsLength in
      {| ItemsDuration.duration := itemsDuration;
         ItemsDuration.remainder := js_rem totalDuration itemsLength |}.
End Utils.

(** ** The weighting over a store of objects

    [calculatePaceItemDuration] receives a reference to an array of
    references to item objects.  To speak about what it allocates and what
    it leaves alone, the same code is given once more over an explicit
    store: [coursePaceItem.map(...)] reads the input array, the callback
    reads one item and allocates the object [{...item, duration}], and the
    result is a newly allocated array. *)
Module Store.
Abbreviation loc := positive (only parsing).

Inductive object (R : Type) :=
  | Item (it : CoursePaceItem R)
  | Array (els : list loc).
Arguments Item {R} _.
Arguments Array {R} _.

(** Computations that read and extend the store, or get stuck on a
    reference that does not hold what its type promises. *)
Definition M (R A : Type) : Type :=
  gmap loc (object R) → option (A * gmap loc (object R)).

Definition ret {R A} (a : A) : M R A := λ h, Some (a, h).

Definition bind {R A B} (m : M R A) (k : A → M R B) : M R B :=
  λ h, match m h with
       | Some (a, h') => k a h'
       | None => None
       end.

Notation "'do' x <- m ; k" := (bind m (λ x, k))
  (at level 10, x name, m at level 100, k at level 200).

Definition new {R} (o : object R) : M R loc :=
  λ h, let l := fresh (dom h) in Some (l, <[l := o]> h).

Definition get_item {R} (l : loc) : M R (CoursePaceItem R) :=
  λ h, match h !! l with
       | Some (Item it) => Some (it, h)
       | _ => None
       end.

Definition get_array {R} (l : loc) : M R (list loc) :=
  λ h, match h !! l with
       | Some (Array els) => Some (els, h)
       | _ => None
       end.

(** The loop of [Array.prototype.map]: the callback runs on the elements
    from the first to the last. *)
Fixpoint array_map {R} (f : loc → M R loc) (els : list loc) : M R (list loc) :=
  match els with
  | [] => ret []
  | l :: els =>
      do l' <- f l;
      do els' <- array_map f els;
      ret (l' :: els')
  end.

Definition calculatePaceItemDuration {R} (coursePaceItem : loc)
    (assignmentWeightedDuration : AssignmentWeightening) : M R loc :=
  do els <- get_array coursePaceItem;
  do els' <- array_map
               (λ l, do item <- get_item l;
                     new (Item (withDuration assignmentWeightedDuration item)))
               els;
  new (Array els').

(** The items an array reference denotes in a store. *)
Definition item_at {R} (h : gmap loc (object R)) (l : loc) : option (CoursePaceItem R) :=
  match h !! l with
  | Some (Item it) => Some it
  | _ => None
  end.

Definition items_at {R} (h : gmap loc (object R)) (a : loc)
    : option (list (CoursePaceItem R)) :=
  match h !! a with
  | Some (Array els) => mapM (item_at h) els
  | _ => None
  end.
End Store.

(** ** Calendar dates *)

(** [moment('YYYY-MM-DD')]: the start of the civil day, counted in days
    from 1970-01-01 through the proleptic Gregorian calendar. *)
Definition days_from_civil (y m d : Z) : Z :=
  let y' := if m <=? 2 then y - 1 else y in
  let era := y' / 400 in
  let yoe := y' - era * 400 in
  let mp := if 2 <? m then m - 3 else m + 9 in
  let doy := (153 * mp + 2) / 5 + d - 1 in
  let doe := yoe * 365 + yoe / 4 - yoe / 100 + doy in
  era * 146097 + doe - 719468.

Definition civil (y m d : Z) : Moment := days_from_civil y m d * msPerDay.

(** ** A reference instance of the collaborators *)

Module DateStuff.

(** Modelled from the spec: the weekday of a day index, Sunday being 0
    ([date_helpers] is missing; 1970-01-01 was a Thursday). *)
Definition weekday (d : Z) : Z := (d + 4) mod 7.

(** Modelled from the spec: the names used in [selected_days_to_skip],
    "a set of weekday names"; the tests of the utilities write
    ['mon', 'tue']. *)
Definition weekday_name (d : Z) : string :=
  nth (Z.to_nat (weekday d)) ["sun"; "mon"; "tue"; "wed"; "thu"; "fri"; "sat"] "".

(** Modelled from the spec: a blackout date is "an inclusive date
    interval to be excluded from due-date counting". *)
Definition in_blackout (blackoutDates : list BlackoutDate.t) (d : Z) : bool :=
  existsb (λ b, (dayIndex (BlackoutDate.start_date b) <=? d)
                && (d <=? dayIndex (BlackoutDate.end_date b))) blackoutDates.

(** Modelled from the spec: the exclusion rules of the missing
    [date_helpers]: weekends when [exclude_weekends] is set, the selected
    weekdays, and the blackout intervals. *)
Definition dayIsDisabled (d : Z) (excludeWeekends : bool)
    (selectedDaysToSkip : list string) (blackoutDates : list BlackoutDate.t) : bool :=
  (excludeWeekends && ((weekday d =? 0) || (weekday d =? 6)))
  || bool_decide (weekday_name d ∈ selectedDaysToSkip)
  || in_blackout blackoutDates d.

(** Modelled from the spec: the walk of the missing [addDays], "add N
    eligible days skipping exclusions": one day forward at a time, an
    eligible day counting for one.  [fuel] bounds the walk, which has no
    end when every weekday is skipped. *)
Fixpoint walk (fuel : nat) (d : Z) (n : nat) (excludeWeekends : bool)
    (selectedDaysToSkip : list string) (blackoutDates : list BlackoutDate.t) : Z :=
  match fuel, n with
  | O, _ | _, O => d
  | S fuel', S n' =>
      if dayIsDisabled (d + 1) excludeWeekends selectedDaysToSkip blackoutDates
      then walk fuel' (d + 1) n excludeWeekends selectedDaysToSkip blackoutDates
      else walk fuel' (d + 1) n' excludeWeekends selectedDaysToSkip blackoutDates
  end.

(** The days a walk of [n] eligible days can take when some weekday is
    eligible: seven per eligible day and one per blacked-out day. *)
Definition horizon (n : nat) (blackoutDates : list BlackoutDate.t) : nat :=
  Z.to_nat
    (7 * (Z.of_nat n + 1)
     + foldr (λ b acc,
         Z.max 0 (dayIndex (BlackoutDate.end_date b)
                  - dayIndex (BlackoutDate.start_date b) + 1) + acc)
       0 blackoutDates).

(** Modelled from the spec: the missing [addDays], "add N eligible days
    skipping exclusions"; the result is the start of the day reached. *)
Definition addDays (start : Moment) (numberOfDays : Z) (excludeWeekends : bool)
    (selectedDaysToSkip : list string) (blackoutDates : list BlackoutDate.t) : Moment :=
  walk (horizon (Z.to_nat numberOfDays) blackoutDates) (dayIndex start)
    (Z.to_nat numberOfDays) excludeWeekends selectedDaysToSkip blackoutDates
  * msPerDay.

(** Modelled from the spec: the missing [daysBetween], "the count of
    eligible working days strictly between startDate and endDate
    (respecting the same exclusion rules)". *)
Definition daysBetween (startDate endDate : Moment) (excludeWeekends : bool)
    (selectedDaysToSkip : list string) (blackoutDates : list BlackoutDate.t) : Z :=
  Z.of_nat (length (filter
    (λ d, dayIsDisabled d excludeWeekends selectedDaysToSkip blackoutDates = false)
    (seqZ (dayIndex startDate + 1) (dayIndex endDate - dayIndex startDate - 1)))).

(** Modelled from the spec: the missing [rawDaysBetweenInclusive], the
    "inclusive day count between two dates". *)
Definition rawDaysBetweenInclusive (startDate endDate : Moment) : Z :=
  dayIndex endDate - dayIndex startDate + 1.

(** Modelled from the spec: the missing [getDueDates], which "walks a
    sequence of items and a start date, skipping excluded days, and
    returns one due date per item", as a "mapping from item identity to
    due date". *)
Fixpoint dueDatesFrom {R} (current : Moment) (coursePaceItems : list (CoursePaceItem R))
    (excludeWeekends : bool) (selectedDaysToSkip : list string)
    (blackoutDates : list BlackoutDate.t) : gmap string Moment :=
  match coursePaceItems with
  | [] => ∅
  | item :: rest_items =>
      let due := addDays current (duration item) excludeWeekends
                   selectedDaysToSkip blackoutDates in
      <[id item := due]>
        (dueDatesFrom due rest_items excludeWeekends selectedDaysToSkip blackoutDates)
  end.

Definition getDueDates {clock : Clock} {R} (coursePaceItems : list (CoursePaceItem R))
    (excludeWeekends : bool) (selectedDaysToSkip : list string)
    (blackoutDates : list BlackoutDate.t) (startDate : option Moment)
    : gmap string Moment :=
  dueDatesFrom (moment startDate) coursePaceItems excludeWeekends
    selectedDaysToSkip blackoutDates.

End DateStuff.

(** The reference collaborators as instances, over a clock that shows the
    given instant. *)
Definition reference_helpers : DateHelpers :=
  Build_DateHelpers DateStuff.rawDaysBetweenInclusive DateStuff.addDays
    DateStuff.daysBetween.

Definition reference_calculator (c : Clock) (R : Type) : PaceDueDatesCalculator R :=
  Build_PaceDueDatesCalculator R (DateStuff.getDueDates (R := R)).

(** ** The duration converter in double precision

    [calendarDaysToPaceDuration] above reads the numbers as integers.  A
    JavaScript number is a double, and a quotient of doubles is rounded to
    the nearest double, ties going to the even significand, before
    [Math.floor] sees it.  This module gives the converter with that
    rounding; the two readings agree on the safe integers and part from
    [7 * 2^51 + 6] on. *)
Module Double.

(** The integer nearest to [n / d], for [0 <= n] and [0 < d]; of two
    nearest integers the even one. *)
Definition round_half_even (n d : Z) : Z :=
  let q := n / d in
  let r := n mod d in
  if 2 * r <? d then q
  else if d <? 2 * r then q + 1
  else if Z.even q then q else q + 1.

(** The binade of [n / d], for [0 < n] and [0 < d]: the exponent [l] with
    [2^l <= n / d < 2^(l + 1)]. *)
Definition binade (n d : Z) : Z :=
  let l := Z.log2 n - Z.log2 d in
  if (if 0 <=? l then d * 2 ^ l <=? n else d <=? n * 2 ^ (- l)) then l else l - 1.

(** [Math.floor(n / d)] for doubles [n] and [d] that hold integers, [d]
    positive, the quotient being in the normal range: the quotient of the
    absolute values is rounded to a significand [m] of 53 bits at the
    exponent [e], the sign is put back and the floor is taken. *)
Definition floor_quotient (n d : Z) : Z :=
  let a := Z.abs n in
  let e := binade a d - 52 in
  let m :=
    if 0 <=? e then round_half_even a (d * 2 ^ e)
    else round_half_even (a * 2 ^ (- e)) d in
  let signed := Z.sgn n * m in
  if 0 <=? e then signed * 2 ^ e else signed / 2 ^ (- e).

(** The integers a double can hold: those whose absolute value fits in 53
    bits after the trailing zeros of its binade are dropped. *)
Definition representable (z : Z) : bool :=
  let a := Z.abs z in
  let shift := Z.max 0 (Z.log2 a - 52) in
  Z.shiftl (Z.shiftr a shift) shift =? a.

(** [Number.MAX_SAFE_INTEGER]. *)
Definition MAX_SAFE_INTEGER : Z := 2 ^ 53 - 1.

(** The converter: the quotient is rounded, the remainder of two doubles
    is exact. *)
Definition calendarDaysToPaceDuration (calendarDays : Z) : PaceDuration :=
  {| weeks := floor_quotient calendarDays 7; days := Z.rem calendarDays 7 |}.

End Double.

(** ** The weighting over every number

    [calculatePaceItemDuration] above reads weights and durations as
    integers, of which only 0 is falsy.  A weight can be any number, [NaN]
    among them, which is defined, is not 0 and is falsy.  This module gives
    the weighting over a type [number] of all the values a weight and a
    duration can take, with [truthy] for the truthiness [||] tests. *)
Module Js.
Section Numbers.
Context {number : Type} (truthy : number → bool).

Record AssignmentWeightening := {
  assignment : option number;
  discussion : option number;
  quiz : option number;
  page : option number
}.

Record CoursePaceItem (R : Type) := {
  id : string;
  module_item_type : string;
  duration : number;
  rest : R
}.
Arguments id {R} _.
Arguments module_item_type {R} _.
Arguments duration {R} _.
Arguments rest {R} _.

Definition getDuration (assignmentWeightedDuration : AssignmentWeightening)
    (itemType : string) : option number :=
  if String.eqb itemType "Assignment" then assignment assignmentWeightedDuration
  else if String.eqb itemType "DiscussionTopic" then discussion assignmentWeightedDuration
  else if String.eqb itemType "Quizzes::Quiz" then quiz assignmentWeightedDuration
  else if String.eqb itemType "Page" then page assignmentWeightedDuration
  else None.

(** [x || y] on [number | undefined]. *)
Definition or_else (x : option number) (y : number) : number :=
  match x with
  | Some v => if truthy v then v else y
  | None => y
  end.

Definition withDuration {R} (w : AssignmentWeightening)
    (item : CoursePaceItem R) : CoursePaceItem R :=
  let duration' := or_else (getDuration w (module_item_type item)) (duration item) in
  {| id := id item;
     module_item_type := module_item_type item;
     duration := duration';
     rest := rest item |}.

Definition calculatePaceItemDuration {R} (coursePaceItem : list (CoursePaceItem R))
    (assignmentWeightedDuration : AssignmentWeightening) : list (CoursePaceItem R) :=
  map (withDuration assignmentWeightedDuration) coursePaceItem.

(** The entry of the weighting that corresponds to a category. *)
Inductive weighting_entry (w : AssignmentWeightening) : string → option number → Prop :=
  | entry_assignment : weighting_entry w "Assignment" (assignment w)
  | entry_discussion : weighting_entry w "DiscussionTopic" (discussion w)
  | entry_quiz : weighting_entry w "Quizzes::Quiz" (quiz w)
  | entry_page : weighting_entry w "Page" (page w).
End Numbers.
Arguments id {number R} _.
Arguments module_item_type {number R} _.
Arguments duration {number R} _.
Arguments rest {number R} _.
Arguments assignment {number} _.
Arguments discussion {number} _.
Arguments quiz {number} _.
Arguments page {number} _.
Arguments getDuration {number} _ _.
Arguments weighting_entry {number} _ _ _.
End Js.

(** The truthiness of a number of the type [number]: every number but 0
    and [NaN]. *)
Definition truthy_number (n : number) : bool :=
  match n with
  | Int z => negb (z =? 0)
  | NaN => false
  | Infinity | NegInfinity => true
  end.

(** The integer reading inside the reading over every number. *)
Definition integer_weighting (w : AssignmentWeightening) : Js.AssignmentWeightening :=
  {| Js.assignment := assignment w; Js.discussion := discussion w;
     Js.quiz := quiz w; Js.page := page w |}.

Definition integer_item {R} (item : CoursePaceItem R) : Js.CoursePaceItem R :=
  {| Js.id := id item; Js.module_item_type := module_item_type item;
     Js.duration := duration item; Js.rest := rest item |}.

(** Items whose weights and durations are all the numbers of [number]. *)
Definition number_item (ty : string) (d : number) : Js.CoursePaceItem unit :=
  {| Js.id := "51"; Js.module_item_type := ty; Js.duration := d; Js.rest := tt |}.

Definition nan_weighting : Js.AssignmentWeightening :=
  {| Js.assignment := Some NaN; Js.discussion := Some (Int 0);
     Js.quiz := Some (Int 4); Js.page := None |}.

(** ** Pace contexts *)

(** [PaceContext], with the two fields the launcher id is made of; both
    are strings, the type being one of the [PaceContextTypes]. *)
Record PaceContext := { type : string; item_id : string }.

(** The template literal [`pace-modal-launcher-${type}-${item_id}`]. *)
Definition generateModalLauncherId (paceContext : PaceContext) : string :=
  "pace-modal-launcher-" +:+ type paceContext +:+ "-" +:+ item_id paceContext.

(** The two tables from the names of the API to the context types. *)
Definition API_CONTEXT_TYPE_MAP : gmap string string :=
  <["course" := "Course"]>
    (<["section" := "Section"]>
      (<["student_enrollment" := "Enrollment"]>
        (<["bulk_enrollment" := "BulkEnrollment"]> ∅))).

Definition CONTEXT_TYPE_MAP : gmap string string :=
  <["Course" := "Course"]>
    (<["CourseSection" := "Section"]>
      (<["StudentEnrollment" := "Enrollment"]> ∅)).

(** ** The time selection of the pace editor

    The computations of the [TimeSelection] component, over the state its
    hooks hold: the start date and the end date, which are optional, and
    the weeks and days shown. *)

(** [Number.isInteger(value)] and [value <= 0] on the value of a number
    input. *)
Definition isInteger (value : number) : bool :=
  match value with
  | Int _ => true
  | _ => false
  end.

Definition nonPositive (value : number) : bool :=
  match value with
  | Int z => z <=? 0
  | NegInfinity => true
  | NaN | Infinity => false
  end.

(** The operation of an arrow and the unit of a number input: the literals
    ['add'] and ['subtract'], ['weeks'] and ['days']. *)
Inductive Operation := add | subtract.
Inductive Unit := weeks_unit | days_unit.

Definition Operation_eqb (a b : Operation) : bool :=
  match a, b with
  | add, add | subtract, subtract => true
  | _, _ => false
  end.

(** [m.add(n, unit)]: a week is seven days. *)
Definition add_unit (m : Moment) (n : Z) (unit : Unit) : Moment :=
  match unit with
  | weeks_unit => add_days m (7 * n)
  | days_unit => add_days m n
  end.

Section TimeSelection.
Context {R : Type} {clock : Clock} {helpers : DateHelpers}.

(** The memoised [endDateValue]: the end date of the pace when it has
    one, and otherwise the day the budget ends on.  [end_date] is the
    field [coursePace.end_date], which [CoursePace] above does not
    carry. *)
Definition endDateValue (coursePace : CoursePace R) (end_date : option Moment)
    : Moment :=
  match end_date with
  | Some e => e
  | None =>
      let startDateMoment := startOf_day (moment (start_date coursePace)) in
      startOf_day
        (add_days startDateMoment (time_to_complete_calendar_days coursePace - 1))
  end.

(** [setTimeToComplete]: the day budget it dispatches and the weeks and
    days it shows. *)
Definition setTimeToComplete (startDate endDate : option Moment)
    : Z * PaceDuration :=
  let startDateValue := endOf_day (moment startDate) in
  let endDateValue := endOf_day (moment endDate) in
  let calendarDays := rawDaysBetweenInclusive startDateValue endDateValue in
  let paceDuration := calendarDaysToPaceDuration calendarDays in
  (calendarDays, paceDuration).

(** [updateEndDate] of a number input showing [value] in [unit]: the end
    date after the arrow [operation] is pressed. *)
Definition updateEndDate (value : number) (unit : Unit) (endDate : option Moment)
    (operation : Operation) : option Moment :=
  if negb (isInteger value)
     || (nonPositive value && Operation_eqb operation subtract)
  then endDate
  else
    let newEndDate :=
      match operation with
      | add => add_unit (moment endDate) 1 unit
      | subtract => add_unit (moment endDate) (-1) unit
      end in
    Some newEndDate.
End TimeSelection.

(** ** The dialog that messages students

    The recipient logic of the [MessageStudentsWhoDialog] component.  A
    score, a total grade and a cutoff are numbers that need not be whole,
    so they are values of a type [number] with the comparison [gt] of
    JavaScript's [>]; [a < b] is [b > a].  The optional fields hold [None]
    for [null] and for [undefined], which the code treats alike. *)
Module MessageStudentsWho.

(** [FilterCriterionValue]: a union of twelve string literals. *)
Inductive FilterCriterionValue :=
  | submitted_and_graded
  | submitted_and_not_graded
  | unsubmitted
  | submitted
  | unsubmitted_skip_excused
  | ungraded
  | scored_more_than
  | scored_less_than
  | marked_incomplete
  | reassigned
  | total_grade_higher_than
  | total_grade_lower_than.

#[export] Instance FilterCriterionValue_eq_dec : EqDecision FilterCriterionValue.
Proof. solve_decision. Defined.

(** [CamelizedAssignment], with the fields the criteria read; an assignment
    that is [null] is [None] of [option Assignment].  [dueAt] is tested
    against [null] alone: it is [Some None] when it is [null], [Some (Some
    s)] when it is the date string [s], and [None] when it is absent. *)
Record Assignment := {
  gradingType : string;
  allowedAttempts : option Z;
  dueAt : option (option string);
  submissionTypes : list string
}.

(** [new Set(xs).isDisjointFrom(new Set(ys))]. *)
Definition isDisjointFrom (xs ys : list string) : bool :=
  forallb (λ x, negb (bool_decide (x ∈ ys))) xs.

Definition isScored (assignment : option Assignment) : bool :=
  match assignment with
  | None => false
  | Some a =>
      bool_decide (gradingType a ∈ ["points"; "percent"; "letter_grade"; "gpa_scale"])
  end.

Definition isReassignable (assignment : option Assignment) : bool :=
  match assignment with
  | None => false
  | Some a =>
      (bool_decide (allowedAttempts a = Some (-1))
       || (1 <? falsy_or (allowedAttempts a) 0))
      && negb (bool_decide (dueAt a = Some None))
      && isDisjointFrom (submissionTypes a)
           ["on_paper"; "external_tool"; "none"; "discussion_topic"; "online_quiz"]
  end.

Definition isSubmittableAssignment (assignment : option Assignment) : bool :=
  match assignment with
  | None => false
  | Some a => isDisjointFrom (submissionTypes a) ["on_paper"; "none"; "not_graded"; ""]
  end.

(** [FilterCriterion]; the title is the English text handed to [I18n.t]. *)
Record FilterCriterion := {
  requiresCutoff : bool;
  shouldShow : option Assignment → bool;
  title : string;
  value : FilterCriterionValue
}.

Definition filterCriteria : list FilterCriterion :=
  [ {| requiresCutoff := false; shouldShow := λ _, false;
       title := "Have submitted and been graded"; value := submitted_and_graded |};
    {| requiresCutoff := false; shouldShow := λ _, false;
       title := "Have submitted and not been graded";
       value := submitted_and_not_graded |};
    {| requiresCutoff := false; shouldShow := isSubmittableAssignment;
       title := "Have not yet submitted"; value := unsubmitted |};
    {| requiresCutoff := false; shouldShow := λ _, false;
       title := "Have not yet submitted and excused";
       value := unsubmitted_skip_excused |};
    {| requiresCutoff := false; shouldShow := isSubmittableAssignment;
       title := "Have submitted"; value := submitted |};
    {| requiresCutoff := false;
       shouldShow := λ assignment, bool_decide (is_Some assignment);
       title := "Have not been graded"; value := ungraded |};
    {| requiresCutoff := true; shouldShow := isScored;
       title := "Scored more than"; value := scored_more_than |};
    {| requiresCutoff := true; shouldShow := isScored;
       title := "Scored less than"; value := scored_less_than |};
    {| requiresCutoff := false;
       shouldShow := λ assignment,
         match assignment with
         | Some a => String.eqb (gradingType a) "pass_fail"
         | None => false
         end;
       title := "Marked incomplete"; value := marked_incomplete |};
    {| requiresCutoff := false; shouldShow := isReassignable;
       title := "Reassigned"; value := reassigned |};
    {| requiresCutoff := true;
       shouldShow := λ assignment, negb (bool_decide (is_Some assignment));
       title := "Have total grade higher than"; value := total_grade_higher_than |};
    {| requiresCutoff := true;
       shouldShow := λ assignment, negb (bool_decide (is_Some assignment));
       title := "Have total grade lower than"; value := total_grade_lower_than |} ].

(** [filterCriteria.filter(criterion => criterion.shouldShow(assignment))]
    and [filterCriteria.find(criterion => criterion.value === value)]. *)
Definition availableCriteria (assignment : option Assignment) : list FilterCriterion :=
  filter (λ criterion, shouldShow criterion assignment = true) filterCriteria.

Definition findCriterion (v : FilterCriterionValue) : option FilterCriterion :=
  snd <$> list_find (λ criterion, value criterion = v) filterCriteria.

(** Truthiness of an optional string and of an optional boolean. *)
Definition truthy_string (s : option string) : bool :=
  match s with
  | Some s => negb (String.eqb s "")
  | None => false
  end.

Definition truthy_bool (b : option bool) : bool := default false b.

Section Students.
Context {number : Type} (gt : number → number → bool).

Record Student := {
  id : string;
  grade : option string;
  name : string;
  redoRequest : option bool;
  score : option number;
  currentScore : option number;
  sortableName : string;
  submittedAt : option Moment;
  excused : option bool;
  workflowState : string
}.

(** [typeof x === 'number' && x > cutoff], and the same with [<]. *)
Definition numberAbove (x : option number) (cutoff : number) : bool :=
  match x with
  | Some x => gt x cutoff
  | None => false
  end.

Definition numberBelow (x : option number) (cutoff : number) : bool :=
  match x with
  | Some x => gt cutoff x
  | None => false
  end.

(** The [switch] of [filterStudents]: whether the student is pushed. *)
Definition selects (criterion : option FilterCriterion) (student : Student)
    (cutoff : number) : bool :=
  let hasSubmitted := bool_decide (is_Some (submittedAt student)) in
  let pendingReview := String.eqb (workflowState student) "pending_review" in
  match value <$> criterion with
  | Some unsubmitted => negb hasSubmitted
  | Some submitted => hasSubmitted
  | Some submitted_and_graded =>
      hasSubmitted && truthy_string (grade student) && negb pendingReview
  | Some submitted_and_not_graded =>
      hasSubmitted && (negb (truthy_string (grade student)) || pendingReview)
  | Some unsubmitted_skip_excused =>
      negb hasSubmitted && negb (truthy_bool (excused student))
  | Some ungraded =>
      (negb (truthy_string (grade student)) && negb (truthy_bool (excused student)))
      || pendingReview
  | Some scored_more_than => numberAbove (score student) cutoff
  | Some scored_less_than => numberBelow (score student) cutoff
  | Some marked_incomplete => bool_decide (grade student = Some "incomplete")
  | Some reassigned => truthy_bool (redoRequest student)
  | Some total_grade_higher_than => numberAbove (currentScore student) cutoff
  | Some total_grade_lower_than => numberBelow (currentScore student) cutoff
  | None => false
  end.

(** The loop over the students, pushing the selected ones. *)
Definition filterStudents (criterion : option FilterCriterion)
    (students : list Student) (cutoff : number) : list Student :=
  fold_left
    (λ newfilteredStudents student,
       if selects criterion student cutoff
       then newfilteredStudents ++ [student]
       else newfilteredStudents)
    students [].
End Students.
Arguments id {number} _.
Arguments grade {number} _.
Arguments name {number} _.
Arguments redoRequest {number} _.
Arguments score {number} _.
Arguments currentScore {number} _.
Arguments sortableName {number} _.
Arguments submittedAt {number} _.
Arguments excused {number} _.
Arguments workflowState {number} _.
Arguments selects {number} gt criterion student cutoff.
Arguments filterStudents {number} gt criterion students cutoff.
Arguments numberAbove {number} gt x cutoff.
Arguments numberBelow {number} gt x cutoff.

(** [ObserverEnrollmentConnectionUser] and an observer enrollment: the
    observer [user] observes the student whose [_id] is
    [associatedUser]. *)
Record User := { _id : string; user_sortableName : string }.

Record ObserverEnrollment := { associatedUser : string; user : User }.

(** The step and the whole of the [reduce] that builds
    [observersByStudentID]: the observers of each student, an observer
    being pushed unless one with its [_id] is there. *)
Definition addObserver (results : gmap string (list User))
    (enrollment : ObserverEnrollment) : gmap string (list User) :=
  let observeeId := associatedUser enrollment in
  let existingObservers := default [] (results !! observeeId) in
  if existsb (λ u, String.eqb (_id u) (_id (user enrollment))) existingObservers
  then <[observeeId := existingObservers]> results
  else <[observeeId := existingObservers ++ [user enrollment]]> results.

Definition observersByStudentID (observerEnrollments : list ObserverEnrollment)
    : gmap string (list User) :=
  fold_left addObserver observerEnrollments ∅.

Section Recipients.
Context {number : Type}.
Implicit Types (students : list (Student (number := number))).

(** [observers[student.id]?.length || 0], summed over the students. *)
Definition observerCount students (observers : gmap string (list User)) : nat :=
  fold_left
    (λ acc student,
       (acc + match observers !! id student with
              | Some l => length l
              | None => 0
              end)%nat)
    students 0%nat.

Definition calculateObserverRecipientCount (selectedObservers : gmap string (list string))
    : nat :=
  fold_left (λ acc array, (acc + length array)%nat) (Object_values selectedObservers) 0%nat.

(** [initializeSelectedObservers]: every student with no observer
    selected. *)
Definition initializeSelectedObservers students : gmap string (list string) :=
  fold_left (λ map student, <[id student := []]> map) students ∅.

(** The checked branch of [onObserversCheckboxChanged]: every observer of
    every filtered student. *)
Definition selectAllObservers students (observersByStudent : gmap string (list User))
    : gmap string (list string) :=
  fold_left
    (λ map student,
       let observersForStudent := default [] (observersByStudent !! id student) in
       <[id student := _id <$> observersForStudent]> map)
    students ∅.
End Recipients.

(** [Object.keys(o)]: the keys, in an order the dialog does not depend
    on. *)
Definition Object_keys {A} (o : gmap string A) : list string := (map_to_list o).*1.

(** [toggleSelection]: [indexOf], then [push] or [splice(index, 1)] on a
    copy. *)
Definition toggleSelection (i : string) (array : list string) : list string :=
  match list_find (λ x, x = i) array with
  | None => array ++ [i]
  | Some (index, _) => delete index array
  end.

(** [toggleObserverSelection]; the observers of a student that is not a
    key are [undefined], on which [indexOf] throws. *)
Definition toggleObserverSelection (studentId observerId : string)
    (selectedObservers : gmap string (list string))
    : option (gmap string (list string)) :=
  observers ← selectedObservers !! studentId;
  Some (<[studentId := toggleSelection observerId observers]> selectedObservers).

(** [isLengthBetweenBoundaries] and the three flags an effect derives for
    a checkbox from the number selected and the number selectable. *)
Definition isLengthBetweenBoundaries (subsetLength totalLength : nat) : bool :=
  (0 <? subsetLength)%nat && (subsetLength <? totalLength)%nat.

Record CheckboxFlags := { indeterminate : bool; disabled : bool; checked : bool }.

Definition checkboxFlags (selectedLength totalLength : nat) : CheckboxFlags :=
  {| indeterminate := isLengthBetweenBoundaries selectedLength totalLength;
     disabled := (totalLength =? 0)%nat;
     checked := (0 <? totalLength)%nat && (selectedLength =? totalLength)%nat |}.

(** [[...new Set(xs)]]: the elements in the order of their first
    occurrence. *)
Definition uniqueValues (xs : list string) : list string :=
  fold_left (λ seen x, if bool_decide (x ∈ seen) then seen else seen ++ [x]) xs [].

(** The arguments of [onSend]; of the uploaded media they take the id and
    the type, and of an attachment its id, which stands for the attachment
    here. *)
Record MediaFile := { media_id : string; media_type : string }.

Record SendMessageArgs := {
  attachmentIds : option (list string);
  recipientsIds : list string;
  subject : string;
  body : string;
  mediaFile : option MediaFile
}.

(** What pressing the send button leads to, after it has marked the form
    as submitted: nothing more when the form is not valid, the spinner
    while uploads are pending, and otherwise the call of [onSend],
    followed by the closing of the dialog. *)
Inductive SendOutcome :=
  | NotValid
  | WaitsForUploads
  | Sends (args : SendMessageArgs).

Section Send.
(** [String.prototype.trim]. *)
Context (trim : string → string).

Definition isFormDataValid (message : string) (selectedStudents : list string)
    (selectedObservers : gmap string (list string)) : bool :=
  let isMessagePresent := (0 <? String.length (trim message))%nat in
  let areRecipientsPresent :=
    (0 <? length selectedStudents
          + length (concat (Object_values selectedObservers)))%nat in
  isMessagePresent && areRecipientsPresent.

Definition handleSendButton (message subject : string)
    (selectedStudents : list string) (selectedObservers : gmap string (list string))
    (pendingUploads : nat) (mediaUploadFile : option MediaFile)
    (attachments : list string) : SendOutcome :=
  if negb (isFormDataValid message selectedStudents selectedObservers) then NotValid
  else if (0 <? pendingUploads)%nat then WaitsForUploads
  else
    let recipientsIds := selectedStudents ++ concat (Object_values selectedObservers) in
    let uniqueRecipientsIds := uniqueValues recipientsIds in
    Sends {| recipientsIds := uniqueRecipientsIds;
             subject := subject;
             body := trim message;
             mediaFile := mediaUploadFile;
             attachmentIds :=
               if (0 <? length attachments)%nat then Some attachments else None |}.
End Send.

End MessageStudentsWho.

(** Students and enrollments the statements are tried on; the scores are
    whole numbers here. *)
Definition sample_student (i : string) (submitted : bool) (g : option string)
    (s : option Z) : MessageStudentsWho.Student :=
  {| MessageStudentsWho.id := i; MessageStudentsWho.grade := g;
     MessageStudentsWho.name := i; MessageStudentsWho.redoRequest := None;
     MessageStudentsWho.score := s; MessageStudentsWho.currentScore := s;
     MessageStudentsWho.sortableName := i;
     MessageStudentsWho.submittedAt := if submitted then Some (civil 2021 9 2) else None;
     MessageStudentsWho.excused := None;
     MessageStudentsWho.workflowState := "graded" |}.

Definition sample_students : list MessageStudentsWho.Student :=
  [ sample_student "100" true (Some "A") (Some 9);
    sample_student "101" false None None;
    sample_student "102" true None None ].

Definition sample_enrollments : list MessageStudentsWho.ObserverEnrollment :=
  [ {| MessageStudentsWho.associatedUser := "100";
       MessageStudentsWho.user :=
         {| MessageStudentsWho._id := "200";
            MessageStudentsWho.user_sortableName := "Parent, A" |} |};
    {| MessageStudentsWho.associatedUser := "100";
       MessageStudentsWho.user :=
         {| MessageStudentsWho._id := "201";
            MessageStudentsWho.user_sortableName := "Parent, B" |} |};
    {| MessageStudentsWho.associatedUser := "100";
       MessageStudentsWho.user :=
         {| MessageStudentsWho._id := "200";
            MessageStudentsWho.user_sortableName := "Parent, A" |} |};
    {| MessageStudentsWho.associatedUser := "101";
       MessageStudentsWho.user :=
         {| MessageStudentsWho._id := "200";
            MessageStudentsWho.user_sortableName := "Parent, A" |} |} ].

Definition pending_student : MessageStudentsWho.Student :=
  {| MessageStudentsWho.id := "103"; MessageStudentsWho.grade := Some "B";
     MessageStudentsWho.name := "103"; MessageStudentsWho.redoRequest := None;
     MessageStudentsWho.score := Some 7; MessageStudentsWho.currentScore := Some 7;
     MessageStudentsWho.sortableName := "103";
     MessageStudentsWho.submittedAt := Some (civil 2021 9 2);
     MessageStudentsWho.excused := None;
     MessageStudentsWho.workflowState := "pending_review" |}.

(** ** Vocabulary of the statements *)

(** [m] is the maximum of the due dates of [dues]: one of them, and no
    other is later. *)
Definition latest_due_date (dues : gmap string Moment) (m : Moment) : Prop :=
  (∃ k, dues !! k = Some m) ∧ ∀ k d, dues !! k = Some d → d ≤ m.

(** The same as a test that can be run on a given map of due dates. *)
Definition is_latest_due_date (dues : gmap string Moment) (m : Moment) : bool :=
  bool_decide (m ∈ Object_values dues)
  && forallb (λ d, d <=? m) (Object_values dues).

(** The sentinel [{duration: 0, remainder: 0}]. *)
Definition sentinel : ItemsDuration.t :=
  {| ItemsDuration.duration := Int 0; ItemsDuration.remainder := Int 0 |}.

(** Items and weightings the statements are tried on. *)
Definition sample_item (i ty : string) (d : Z) : CoursePaceItem unit :=
  {| id := i; module_item_type := ty; duration := d; rest := tt |}.

Definition sample_items : list (CoursePaceItem unit) :=
  [ sample_item "51" "Assignment" 6; sample_item "52" "DiscussionTopic" 6;
    sample_item "53" "Quizzes::Quiz" 6; sample_item "54" "Page" 6;
    sample_item "55" "ExternalUrl" 6 ].

Definition sample_weighting : AssignmentWeightening :=
  {| assignment := Some 2; discussion := Some 3; quiz := Some 4; page := None |}.

Definition zero_weighting : AssignmentWeightening :=
  {| assignment := Some 0; discussion := Some 3; quiz := Some 4; page := Some 1 |}.

(** A store that holds two items and the array of both. *)
Definition sample_store : gmap positive (Store.object unit) :=
  {[ 1%positive := Store.Item (sample_item "51" "Assignment" 6);
     2%positive := Store.Item (sample_item "55" "ExternalUrl" 6);
     3%positive := Store.Array [1%positive; 2%positive] ]}.

(** The pace of the tests: it starts on Wednesday 2021-09-01 and holds
    three items of two days each, in two modules. *)
Definition sample_clock : Clock := {| now := civil 2021 8 15 |}.

Definition pace_items : list (CoursePaceItem unit) :=
  [ sample_item "51" "Assignment" 2; sample_item "52" "Assignment" 2;
    sample_item "53" "Assignment" 2 ].

Definition sample_pace (budget : Z) (excludeWeekends : bool)
    (selectedDaysToSkip : list string) : CoursePace unit :=
  {| start_date := Some (civil 2021 9 1);
     time_to_complete_calendar_days := budget;
     exclude_weekends := excludeWeekends;
     selected_days_to_skip := selectedDaysToSkip;
     modules := [ {| items := [ sample_item "51" "Assignment" 2;
                                sample_item "52" "Assignment" 2 ] |};
                  {| items := [ sample_item "53" "Assignment" 2 ] |} ] |}.

Definition spring_break : BlackoutDate.t :=
  {| BlackoutDate.id := "30"; BlackoutDate.course_id := "1";
     BlackoutDate.event_title := "Spring break";
     BlackoutDate.start_date := civil 2021 9 2;
     BlackoutDate.end_date := civil 2021 9 3 |}.

(** * Properties *)

(** ** Duration converter *)

(** The rounded significand is within half a unit of the quotient. *)
Lemma round_half_even_near (n d : Z) :
  0 < d →
  2 * (d * Double.round_half_even n d - n) ≤ d
  ∧ 2 * (n - d * Double.round_half_even n d) ≤ d.
Proof.
  intros Hd. unfold Double.round_half_even.
  pose proof (Z.div_mod n d ltac:(lia)) as Hdm.
  pose proof (Z.mod_pos_bound n d Hd) as Hbound.
  destruct (Z.ltb_spec (2 * (n mod d)) d), (Z.ltb_spec d (2 * (n mod d)));
    try destruct (Z.even (n / d)); lia.
Qed.

(** Below [2^53] the quotient by 7 is rounded at an exponent of -2 or
    less: to quarters or finer. *)
Lemma binade_safe (a : Z) :
  0 ≤ a < 2 ^ 53 → Double.binade a 7 - 52 ≤ -2.
Proof.
  intros Ha. unfold Double.binade.
  assert (Z.log2 a ≤ 52) as Hlog.
  { destruct (Z.eq_dec a 0) as [-> | Hne]; [done |].
    apply Z.lt_succ_r, Z.log2_lt_pow2; lia. }
  change (Z.log2 7) with 2.
  destruct (if 0 <=? Z.log2 a - 2 then _ else _); lia.
Qed.

(** A quotient by 7 rounded to quarters or finer stays on its side of
    the integers around it, so its floor is the floor of the exact
    quotient. *)
Lemma floor_quotient_safe (n : Z) :
  - 2 ^ 53 < n < 2 ^ 53 → Double.floor_quotient n 7 = n / 7.
Proof.
  intros Hn. unfold Double.floor_quotient.
  set (a := Z.abs n). assert (0 ≤ a < 2 ^ 53) as Ha by (unfold a; lia).
  pose proof (binade_safe a Ha) as He.
  set (e := Double.binade a 7 - 52) in *.
  destruct (Z.leb_spec 0 e) as [Hpos | _]; [lia |].
  assert (4 ≤ 2 ^ (- e)) as Hs.
  { change 4 with (2 ^ 2). apply Z.pow_le_mono_r; lia. }
  set (s := 2 ^ (- e)) in *.
  destruct (round_half_even_near (a * s) 7 ltac:(lia)) as [Hup Hdown].
  set (m := Double.round_half_even (a * s) 7) in *.
  pose proof (Z.div_mod a 7 ltac:(lia)) as Hdm.
  pose proof (Z.mod_pos_bound a 7 ltac:(lia)) as Hbound.
  set (k := a / 7) in *. set (r := a mod 7) in *.
  assert (a * s = 7 * (k * s) + r * s) as Has by (rewrite Hdm; ring).
  assert (0 ≤ r * s ≤ 6 * s) as Hrs by nia.
  assert (0 < r → s ≤ r * s) as Hrs' by nia.
  assert (r = 0 → r * s = 0) as Hrs0 by nia.
  set (X := k * s) in *. set (Y := r * s) in *.
  assert (X ≤ m < X + s) as Hm by lia.
  destruct (Z.lt_trichotomy n 0) as [Hneg | [-> | Hpos]].
  - replace (Z.sgn n) with (-1) by lia. replace n with (- a) by (unfold a; lia).
    destruct (Z.eq_dec r 0) as [Hr0 | Hr].
    + assert (m = X) by lia.
      transitivity (- k).
      * symmetry. apply (Z.div_unique _ _ _ 0); [lia | unfold X in *; lia].
      * apply (Z.div_unique _ _ _ 0); lia.
    + assert (X < m) by lia.
      transitivity (- k - 1).
      * symmetry. apply (Z.div_unique _ _ _ (X + s - m)); [lia | unfold X in *; lia].
      * apply (Z.div_unique _ _ _ (7 - r)); lia.
  - reflexivity.
  - replace (Z.sgn n) with 1 by lia. replace n with a by (unfold a; lia).
    rewrite Z.mul_1_l. symmetry.
    apply (Z.div_unique _ _ _ (m - X)); [lia | unfold X in *; lia].
Qed.

(** On the safe integers, of either sign, the converter in double
    precision is the converter on the integers. *)
Lemma calendarDaysToPaceDuration_safe (calendarDays : Z) :
  - 2 ^ 53 < calendarDays < 2 ^ 53 →
  Double.calendarDaysToPaceDuration calendarDays
  = calendarDaysToPaceDuration calendarDays.
Proof.
  intros Hsafe. unfold Double.calendarDaysToPaceDuration, calendarDaysToPaceDuration.
  by rewrite floor_quotient_safe.
Qed.

(** C1, as it is stated, fails: 15762598695796742, which is [7 * 2^51 + 6],
    is a non-negative integer a number can hold; its quotient by 7 is
    rounded up to [2^51 + 1] before the floor is taken, so the converter
    returns 2251799813685249 weeks and 6 days, which make seven days more
    than the input. *)
Lemma calendarDaysToPaceDuration_rebuilds_counterexample :
  ¬ (∀ calendarDays : Z,
       0 ≤ calendarDays →
       Double.representable calendarDays = true →
       weeks (Double.calendarDaysToPaceDuration calendarDays) * 7
         + days (Double.calendarDaysToPaceDuration calendarDays) = calendarDays
       ∧ 0 ≤ days (Double.calendarDaysToPaceDuration calendarDays) ≤ 6).
Proof.
  intros Hclaim.
  destruct (Hclaim 15762598695796742 ltac:(lia) eq_refl) as [Hrebuilt _].
  vm_compute in Hrebuilt. discriminate Hrebuilt.
Qed.

(** C1 (amended): for a day count between 0 and [Number.MAX_SAFE_INTEGER]
    the pair [{weeks, days}] returned by [calendarDaysToPaceDuration]
    rebuilds the input, [weeks*7 + days], and [days] lies between 0 and
    6. *)
Theorem calendarDaysToPaceDuration_rebuilds_safe (calendarDays : Z) :
  0 ≤ calendarDays ≤ Double.MAX_SAFE_INTEGER →
  weeks (Double.calendarDaysToPaceDuration calendarDays) * 7
    + days (Double.calendarDaysToPaceDuration calendarDays) = calendarDays
  ∧ 0 ≤ days (Double.calendarDaysToPaceDuration calendarDays) ≤ 6.
Proof.
  unfold Double.MAX_SAFE_INTEGER. intros Hsafe.
  rewrite calendarDaysToPaceDuration_safe by lia.
  cbn [calendarDaysToPaceDuration weeks days].
  rewrite Z.rem_mod_nonneg by lia.
  pose proof (Z.div_mod calendarDays 7 ltac:(lia)) as Hdm.
  pose proof (Z.mod_pos_bound calendarDays 7 ltac:(lia)) as Hbound.
  lia.
Qed.

Lemma calendarDaysToPaceDuration_rebuilds_safe_witness :
  0 ≤ 10 ≤ Double.MAX_SAFE_INTEGER
  ∧ weeks (Double.calendarDaysToPaceDuration 10) * 7
      + days (Double.calendarDaysToPaceDuration 10) = 10
  ∧ 0 ≤ days (Double.calendarDaysToPaceDuration 10) ≤ 6.
Proof.
  assert (0 ≤ 10 ≤ Double.MAX_SAFE_INTEGER) as Hsafe by (vm_compute; split; discriminate).
  split; [exact Hsafe |].
  exact (calendarDaysToPaceDuration_rebuilds_safe 10 Hsafe).
Defined.

(** The largest safe integer still rebuilds; the first integer that does
    not is the one above. *)
Example calendarDaysToPaceDuration_edges :
  Double.calendarDaysToPaceDuration Double.MAX_SAFE_INTEGER
  = {| weeks := 1286742750677284; days := 3 |}
  ∧ Double.calendarDaysToPaceDuration 15762598695796742
    = {| weeks := 2251799813685249; days := 6 |}
  ∧ Double.calendarDaysToPaceDuration 10 = {| weeks := 1; days := 3 |}.
Proof. vm_compute. repeat split. Qed.

Example calendarDaysToPaceDuration_ten :
  calendarDaysToPaceDuration 10 = {| weeks := 1; days := 3 |}.
Proof. reflexivity. Qed.

(** ** Item duration weighting *)

Section Weighting.
Context {R : Type}.
Implicit Types (item : CoursePaceItem R) (w : AssignmentWeightening).

Lemma calculatePaceItemDuration_lookup (coursePaceItem : list (CoursePaceItem R)) w i :
  calculatePaceItemDuration coursePaceItem w !! i
  = withDuration w <$> coursePaceItem !! i.
Proof. unfold calculatePaceItemDuration. apply list_lookup_fmap. Qed.

(** The [switch] returns the entry of the category, and [undefined] for
    a type outside the four categories. *)
Lemma getDuration_entry w ty o :
  weighting_entry w ty o → getDuration w ty = o.
Proof. by destruct 1. Qed.

Lemma getDuration_unknown w ty :
  ty ∉ weighted_types → getDuration w ty = None.
Proof.
  intros Hty. unfold getDuration.
  repeat match goal with
  | |- context [String.eqb ty ?s] =>
      destruct (String.eqb_spec ty s) as [-> | _];
      [exfalso; apply Hty; unfold weighted_types; set_solver |]
  end.
  reflexivity.
Qed.

Lemma weighted_type_has_entry w ty :
  ty ∈ weighted_types → ∃ o, weighting_entry w ty o.
Proof.
  unfold weighted_types. rewrite !elem_of_cons, elem_of_nil.
  intros [-> | [-> | [-> | [-> | []]]]]; eexists; constructor.
Qed.

Lemma falsy_or_truthy v d : v ≠ 0 → falsy_or (Some v) d = v.
Proof. intros Hv. cbn. by destruct (Z.eqb_spec v 0). Qed.

(** The duration of a weighted item, by the cases of its entry. *)
Lemma withDuration_duration w item :
  duration (withDuration w item)
  = falsy_or (getDuration w (module_item_type item)) (duration item).
Proof. reflexivity. Qed.
End Weighting.

(** C2, as it is stated, fails: an [Assignment] item of duration 6 under a
    weighting whose [assignment] entry is defined as 0 keeps the duration
    6, so not every defined entry replaces the duration. *)
Lemma calculatePaceItemDuration_defined_weight_counterexample :
  ¬ (∀ (coursePaceItem : list (CoursePaceItem unit)) (w : AssignmentWeightening)
       (i : nat) (item : CoursePaceItem unit) (v : Z),
       coursePaceItem !! i = Some item →
       weighting_entry w (module_item_type item) (Some v) →
       duration <$> calculatePaceItemDuration coursePaceItem w !! i = Some v).
Proof.
  intros Hclaim.
  specialize (Hclaim sample_items zero_weighting 0%nat
                (sample_item "51" "Assignment" 6) 0 eq_refl
                (entry_assignment zero_weighting)).
  discriminate Hclaim.
Qed.

Section NumberWeighting.
Context {number R : Type} (truthy : number → bool).
Implicit Types (item : Js.CoursePaceItem (number := number) R)
  (w : Js.AssignmentWeightening (number := number)).

Lemma js_getDuration_entry w ty o :
  Js.weighting_entry w ty o → Js.getDuration w ty = o.
Proof. by destruct 1. Qed.

Lemma js_getDuration_unknown w ty :
  ty ∉ weighted_types → Js.getDuration w ty = None.
Proof.
  intros Hty. unfold Js.getDuration.
  repeat match goal with
  | |- context [String.eqb ty ?s] =>
      destruct (String.eqb_spec ty s) as [-> | _];
      [exfalso; apply Hty; unfold weighted_types; set_solver |]
  end.
  reflexivity.
Qed.

Lemma js_weighted_type_has_entry w ty :
  ty ∈ weighted_types → ∃ o, Js.weighting_entry w ty o.
Proof.
  unfold weighted_types. rewrite !elem_of_cons, elem_of_nil.
  intros [-> | [-> | [-> | [-> | []]]]]; eexists; constructor.
Qed.

(** C2 (amended): an item whose category has a weighting entry that is
    defined and truthy, which a number is unless it is 0 or [NaN], gets
    that weight as its duration; every other item keeps its own duration:
    an item of another type, one whose entry is undefined, and one whose
    entry is falsy. *)
Theorem calculatePaceItemDuration_truthy_weights
    (coursePaceItem : list (Js.CoursePaceItem R)) w (i : nat) item :
  coursePaceItem !! i = Some item →
  ∃ item', Js.calculatePaceItemDuration truthy coursePaceItem w !! i = Some item'
    ∧ (∀ v, Js.module_item_type item ∈ weighted_types →
            Js.weighting_entry w (Js.module_item_type item) (Some v) →
            truthy v = true →
            Js.duration item' = v)
    ∧ ((∀ v, Js.module_item_type item ∈ weighted_types →
             Js.weighting_entry w (Js.module_item_type item) (Some v) →
             truthy v = false) →
       Js.duration item' = Js.duration item).
Proof.
  intros Hi. exists (Js.withDuration truthy w item).
  unfold Js.calculatePaceItemDuration.
  change (map ?f ?l) with (f <$> l). rewrite list_lookup_fmap, Hi.
  split; [reflexivity |]. cbn [Js.withDuration Js.duration]. split.
  - intros v _ Hentry Hv.
    rewrite (js_getDuration_entry _ _ _ Hentry). cbn. by rewrite Hv.
  - intros Hfalsy.
    destruct (decide (Js.module_item_type item ∈ weighted_types)) as [Hty | Hty].
    + destruct (js_weighted_type_has_entry w _ Hty) as [[v |] Hentry];
        rewrite (js_getDuration_entry _ _ _ Hentry); [| reflexivity].
      cbn. by rewrite (Hfalsy v Hty Hentry).
    + by rewrite js_getDuration_unknown.
Qed.
End NumberWeighting.

Lemma or_else_integer (x : option Z) (d : Z) :
  Js.or_else (λ z, negb (z =? 0)) x d = falsy_or x d.
Proof. destruct x as [v |]; cbn; [| done]. by destruct (v =? 0). Qed.

Lemma getDuration_integer (w : AssignmentWeightening) (ty : string) :
  Js.getDuration (integer_weighting w) ty = getDuration w ty.
Proof. unfold Js.getDuration, getDuration. by repeat case_match. Qed.

(** The integer reading is the reading over every number, taken at the
    integers with 0 as the only falsy one. *)
Lemma calculatePaceItemDuration_integers {R : Type}
    (coursePaceItem : list (CoursePaceItem R)) (w : AssignmentWeightening) :
  Js.calculatePaceItemDuration (λ z, negb (z =? 0))
    (integer_item <$> coursePaceItem) (integer_weighting w)
  = integer_item <$> calculatePaceItemDuration coursePaceItem w.
Proof.
  unfold Js.calculatePaceItemDuration, calculatePaceItemDuration.
  change (map ?f ?l) with (f <$> l). rewrite <- !list_fmap_compose.
  apply list_fmap_ext. intros _ item _. cbn.
  unfold Js.withDuration, integer_item, withDuration. cbn.
  by rewrite getDuration_integer, or_else_integer.
Qed.

(** A weight that is [NaN] is defined and not 0, and the item keeps its
    duration of 6. *)
Lemma calculatePaceItemDuration_truthy_weights_witness :
  [number_item "Assignment" (Int 6)] !! 0%nat = Some (number_item "Assignment" (Int 6))
  ∧ Js.weighting_entry nan_weighting "Assignment" (Some NaN)
  ∧ truthy_number NaN = false
  ∧ ∃ item',
      Js.calculatePaceItemDuration truthy_number [number_item "Assignment" (Int 6)]
        nan_weighting !! 0%nat = Some item'
      ∧ Js.duration item' = Int 6.
Proof.
  split; [reflexivity |].
  split; [exact (Js.entry_assignment nan_weighting) |]. split; [reflexivity |].
  destruct (calculatePaceItemDuration_truthy_weights truthy_number
              [number_item "Assignment" (Int 6)] nan_weighting 0
              (number_item "Assignment" (Int 6)) eq_refl)
    as (item' & Hitem' & _ & Hkept).
  exists item'. split; [exact Hitem' |]. apply Hkept.
  intros v _ Hentry. inversion Hentry; subst. reflexivity.
Defined.

(** The weights 4 and [Infinity] are applied, the weights [NaN], 0 and
    undefined are not. *)
Example calculatePaceItemDuration_number_weights :
  Js.duration
    <$> Js.calculatePaceItemDuration truthy_number
          [ number_item "Assignment" (Int 6); number_item "DiscussionTopic" (Int 6);
            number_item "Quizzes::Quiz" (Int 6); number_item "Page" (Int 6) ]
          nan_weighting
  = [Int 6; Int 6; Int 4; Int 6]
  ∧ Js.duration
      <$> Js.calculatePaceItemDuration truthy_number
            [number_item "Page" (Int 6)]
            {| Js.assignment := None; Js.discussion := None; Js.quiz := None;
               Js.page := Some Infinity |}
    = [Infinity].
Proof. split; reflexivity. Qed.

(** C9: an item whose weighting entry is defined but equal to 0 keeps its
    own duration; the weight 0 is never applied. *)
Theorem calculatePaceItemDuration_zero_weight_kept {R : Type}
    (coursePaceItem : list (CoursePaceItem R)) (w : AssignmentWeightening)
    (i : nat) (item : CoursePaceItem R) :
  coursePaceItem !! i = Some item →
  weighting_entry w (module_item_type item) (Some 0) →
  duration <$> calculatePaceItemDuration coursePaceItem w !! i
  = Some (duration item).
Proof.
  intros Hi Hentry.
  rewrite calculatePaceItemDuration_lookup, Hi. cbn [fmap option_fmap option_map].
  by rewrite withDuration_duration, (getDuration_entry _ _ _ Hentry).
Qed.

Lemma calculatePaceItemDuration_zero_weight_kept_witness :
  sample_items !! 0%nat = Some (sample_item "51" "Assignment" 6)
  ∧ weighting_entry zero_weighting "Assignment" (Some 0)
  ∧ duration <$> calculatePaceItemDuration sample_items zero_weighting !! 0%nat
    = Some 6.
Proof.
  split; [reflexivity |]. split; [exact (entry_assignment zero_weighting) |].
  apply (calculatePaceItemDuration_zero_weight_kept sample_items zero_weighting 0
           (sample_item "51" "Assignment" 6));
    [reflexivity | exact (entry_assignment zero_weighting)].
Defined.

(** C10: the returned list has the length of the input and, position by
    position, an item that agrees with the input item on every field but
    [duration]. *)
Theorem calculatePaceItemDuration_frame {R : Type}
    (coursePaceItem : list (CoursePaceItem R)) (w : AssignmentWeightening) :
  length (calculatePaceItemDuration coursePaceItem w) = length coursePaceItem
  ∧ ∀ (i : nat) (item : CoursePaceItem R),
      coursePaceItem !! i = Some item →
      ∃ item', calculatePaceItemDuration coursePaceItem w !! i = Some item'
        ∧ id item' = id item
        ∧ module_item_type item' = module_item_type item
        ∧ rest item' = rest item.
Proof.
  split.
  - unfold calculatePaceItemDuration. apply length_map.
  - intros i item Hi. exists (withDuration w item).
    rewrite calculatePaceItemDuration_lookup, Hi. done.
Qed.

(** The weighting of the tests: the four weights land on the four items,
    and an undefined [page] weight leaves the page item at 6. *)
Example calculatePaceItemDuration_tests :
  duration <$> calculatePaceItemDuration sample_items
                 {| assignment := Some 2; discussion := Some 3;
                    quiz := Some 4; page := Some 1 |}
  = [2; 3; 4; 1; 6]
  ∧ duration <$> calculatePaceItemDuration sample_items sample_weighting
    = [2; 3; 4; 6; 6].
Proof. split; reflexivity. Qed.

(** ** The weighting over the store *)

Section StoreProperties.
Context {R : Type}.
Implicit Types (h : gmap positive (Store.object R)) (l : positive).

Lemma item_at_weaken h h' l it :
  h ⊆ h' → Store.item_at h l = Some it → Store.item_at h' l = Some it.
Proof.
  unfold Store.item_at. intros Hsub Hl.
  destruct (h !! l) as [[it0 | els] |] eqn:Hlook; try discriminate.
  by rewrite (lookup_weaken _ _ _ _ Hlook Hsub).
Qed.

Lemma new_extends (o : Store.object R) h :
  ∃ l, Store.new o h = Some (l, <[l := o]> h) ∧ h !! l = None ∧ h ⊆ <[l := o]> h.
Proof.
  exists (fresh (dom h)).
  assert (h !! fresh (dom h) = None) as Hfresh
    by apply (not_elem_of_dom (D := gset positive)), is_fresh.
  split; [reflexivity |]. split; [done |]. by apply insert_subseteq.
Qed.

Lemma bind_run {A B} (m : Store.M R A) (k : A → Store.M R B) h a h' :
  m h = Some (a, h') → Store.bind m k h = k a h'.
Proof. unfold Store.bind. by intros ->. Qed.

Lemma get_item_run h l it :
  Store.item_at h l = Some it → Store.get_item l h = Some (it, h).
Proof.
  unfold Store.item_at, Store.get_item.
  destruct (h !! l) as [[it0 | els] |]; try discriminate. by intros [= ->].
Qed.

Lemma get_array_run h a els :
  h !! a = Some (Store.Array els) → Store.get_array a h = Some (els, h).
Proof. unfold Store.get_array. by intros ->. Qed.

(** The loop allocates one new item per element and changes nothing that
    was in the store. *)
Lemma array_map_withDuration w els : ∀ h its,
  Forall2 (λ l it, Store.item_at h l = Some it) els its →
  ∃ els' h',
    Store.array_map
      (λ l, Store.bind (Store.get_item l)
              (λ item, Store.new (Store.Item (withDuration w item)))) els h
    = Some (els', h')
    ∧ h ⊆ h'
    ∧ Forall (λ l', h !! l' = None) els'
    ∧ Forall2 (λ l' it', Store.item_at h' l' = Some it') els'
        (withDuration w <$> its).
Proof.
  induction els as [| l els IH]; intros h its Hits.
  - inversion Hits; subst. exists [], h.
    split; [reflexivity | split; [done | split; constructor]].
  - inversion Hits as [| ? it ? its' Hl Hrest]; subst.
    destruct (new_extends (Store.Item (withDuration w it)) h)
      as (l' & Hnew & Hfresh & Hsub).
    set (h1 := <[l' := Store.Item (withDuration w it)]> h) in *.
    destruct (IH h1 its') as (els' & h' & Hrun & Hsub' & Hfresh' & Hits').
    { eapply Forall2_impl; [exact Hrest |].
      intros ? ? ?. by eapply item_at_weaken. }
    exists (l' :: els'), h'. split; [| split; [| split]].
    + cbn [Store.array_map].
      rewrite (bind_run _ _ _ l' h1).
      * by rewrite (bind_run _ _ _ _ _ Hrun).
      * by rewrite (bind_run _ _ _ _ _ (get_item_run _ _ _ Hl)).
    + by etrans.
    + constructor; [done |].
      eapply Forall_impl; [exact Hfresh' |]. intros l0 Hl0. cbn in Hl0.
      destruct (h !! l0) eqn:Hlook; [| done].
      by rewrite (lookup_weaken _ _ _ _ Hlook Hsub) in Hl0.
    + cbn [fmap list_fmap]. constructor; [| done].
      eapply item_at_weaken; [exact Hsub' |].
      unfold Store.item_at, h1. by rewrite lookup_insert_eq.
Qed.

Lemma items_at_weaken h h' a its :
  h ⊆ h' → Store.items_at h a = Some its → Store.items_at h' a = Some its.
Proof.
  unfold Store.items_at. intros Hsub Ha.
  destruct (h !! a) as [[it | els] |] eqn:Hlook; try discriminate.
  rewrite (lookup_weaken _ _ _ _ Hlook Hsub).
  apply mapM_Some in Ha. apply mapM_Some.
  eapply Forall2_impl; [exact Ha |]. intros ? ? ?. by eapply item_at_weaken.
Qed.

(** The run of the weighting on a well-formed input array. *)
Lemma store_calculatePaceItemDuration_run h a its w :
  Store.items_at h a = Some its →
  ∃ r els' h',
    Store.calculatePaceItemDuration a w h = Some (r, h')
    ∧ h ⊆ h'
    ∧ h !! r = None
    ∧ h' !! r = Some (Store.Array els')
    ∧ Forall (λ l', h !! l' = None) els'
    ∧ Store.items_at h' r = Some (calculatePaceItemDuration its w).
Proof.
  intros Ha. unfold Store.items_at in Ha.
  destruct (h !! a) as [[it | els] |] eqn:Hlook; try discriminate.
  apply mapM_Some in Ha.
  destruct (array_map_withDuration w els h its Ha)
    as (els' & h1 & Hrun & Hsub & Hfresh & Hits).
  destruct (new_extends (Store.Array els') h1) as (r & Hnew & Hr & Hsub1).
  exists r, els', (<[r := Store.Array els']> h1).
  split; [| split; [| split; [| split; [| split]]]].
  - unfold Store.calculatePaceItemDuration.
    rewrite (bind_run _ _ _ _ _ (get_array_run _ _ _ Hlook)).
    by rewrite (bind_run _ _ _ _ _ Hrun).
  - by etrans.
  - destruct (h !! r) eqn:Hlook'; [| done].
    by rewrite (lookup_weaken _ _ _ _ Hlook' Hsub) in Hr.
  - by rewrite lookup_insert_eq.
  - done.
  - unfold Store.items_at. rewrite lookup_insert_eq.
    apply mapM_Some. unfold calculatePaceItemDuration.
    eapply Forall2_impl; [exact Hits |].
    intros ? ? ?. by eapply item_at_weaken.
Qed.
End StoreProperties.

(** C8: run on an array of items, [calculatePaceItemDuration] returns a
    newly allocated array of newly allocated items and leaves every object
    of the store as it was, the input array and its items among them; the
    returned items are those of the weighting, in which an item of a type
    outside the four categories has the duration of the input item. *)
Theorem calculatePaceItemDuration_new_sequence {R : Type}
    (h : gmap positive (Store.object R)) (coursePaceItem : positive)
    (its : list (CoursePaceItem R)) (w : AssignmentWeightening) :
  Store.items_at h coursePaceItem = Some its →
  ∃ (r : positive) (h' : gmap positive (Store.object R)),
    Store.calculatePaceItemDuration coursePaceItem w h = Some (r, h')
    ∧ (∀ l o, h !! l = Some o → h' !! l = Some o)
    ∧ Store.items_at h' coursePaceItem = Some its
    ∧ h !! r = None
    ∧ (∃ els', h' !! r = Some (Store.Array els')
               ∧ Forall (λ l', h !! l' = None) els')
    ∧ Store.items_at h' r = Some (calculatePaceItemDuration its w)
    ∧ ∀ (i : nat) (item : CoursePaceItem R),
        its !! i = Some item →
        module_item_type item ∉ weighted_types →
        ∃ item', calculatePaceItemDuration its w !! i = Some item'
                 ∧ duration item' = duration item.
Proof.
  intros Ha.
  destruct (store_calculatePaceItemDuration_run h coursePaceItem its w Ha)
    as (r & els' & h' & Hrun & Hsub & Hr & Hr' & Hfresh & Hres).
  exists r, h'. split; [exact Hrun |]. split.
  { intros l o Hl. exact (lookup_weaken _ _ _ _ Hl Hsub). }
  split; [by eapply items_at_weaken |]. split; [exact Hr |].
  split; [by exists els' |]. split; [exact Hres |].
  intros i item Hi Hty. exists (withDuration w item).
  rewrite calculatePaceItemDuration_lookup, Hi. split; [reflexivity |].
  by rewrite withDuration_duration, getDuration_unknown.
Qed.

Lemma calculatePaceItemDuration_new_sequence_witness :
  Store.items_at sample_store 3%positive
  = Some [sample_item "51" "Assignment" 6; sample_item "55" "ExternalUrl" 6]
  ∧ ∃ (r : positive) (h' : gmap positive (Store.object unit)),
      Store.calculatePaceItemDuration 3%positive sample_weighting sample_store
      = Some (r, h')
      ∧ (∀ l o, sample_store !! l = Some o → h' !! l = Some o)
      ∧ Store.items_at h' 3%positive
        = Some [sample_item "51" "Assignment" 6; sample_item "55" "ExternalUrl" 6]
      ∧ sample_store !! r = None
      ∧ (∃ els', h' !! r = Some (Store.Array els')
                 ∧ Forall (λ l', sample_store !! l' = None) els')
      ∧ Store.items_at h' r
        = Some (calculatePaceItemDuration
                  [sample_item "51" "Assignment" 6; sample_item "55" "ExternalUrl" 6]
                  sample_weighting)
      ∧ ∀ (i : nat) (item : CoursePaceItem unit),
          [sample_item "51" "Assignment" 6; sample_item "55" "ExternalUrl" 6] !! i
          = Some item →
          module_item_type item ∉ weighted_types →
          ∃ item',
            calculatePaceItemDuration
              [sample_item "51" "Assignment" 6; sample_item "55" "ExternalUrl" 6]
              sample_weighting !! i = Some item'
            ∧ duration item' = duration item.
Proof.
  split; [vm_compute; reflexivity |].
  apply (calculatePaceItemDuration_new_sequence sample_store 3%positive
           [sample_item "51" "Assignment" 6; sample_item "55" "ExternalUrl" 6]
           sample_weighting).
  vm_compute; reflexivity.
Defined.

(** On the sample store the run allocates the items 4 and 5 and the array
    6, whose items carry the durations 2 and 6. *)
Example store_calculatePaceItemDuration_sample :
  match Store.calculatePaceItemDuration 3%positive sample_weighting sample_store with
  | Some (r, h') => Some (r, option_map (map duration) (Store.items_at h' r))
  | None => None
  end = Some (6%positive, Some [2; 6]).
Proof. vm_compute. reflexivity. Qed.

(** ** Moments *)

Lemma msPerDay_pos : 0 < msPerDay.
Proof. reflexivity. Qed.

(** A moment is after the end of a day exactly when it falls on a later
    day. *)
Lemma isAfter_endOf_day (x m : Moment) :
  isAfter x (endOf_day m) = true ↔ dayIndex m < dayIndex x.
Proof.
  unfold isAfter, endOf_day, startOf_day, dayIndex. rewrite Z.ltb_lt.
  pose proof msPerDay_pos as Hpos.
  pose proof (Z.div_mod m msPerDay ltac:(lia)) as Hm.
  pose proof (Z.mod_pos_bound m msPerDay Hpos) as Hmb.
  pose proof (Z.div_mod x msPerDay ltac:(lia)) as Hx.
  pose proof (Z.mod_pos_bound x msPerDay Hpos) as Hxb.
  nia.
Qed.

Lemma dayIndex_start_of_day (d : Z) : dayIndex (d * msPerDay) = d.
Proof. unfold dayIndex. apply Z.div_mul. pose proof msPerDay_pos. lia. Qed.

Section MomentMax.
Context {clock : Clock}.

Lemma moment_wraps (x : Moment) : moment (Some x) = x.
Proof. reflexivity. Qed.

Lemma moment_fmap_values (l : list Moment) :
  (λ x, moment (Some x)) <$> l = l.
Proof. induction l as [| x l IH]; [done |]. cbn. by f_equal. Qed.

(** The loop of [pickBy] ends on the initial moment or on a later one of
    the list, and nothing it has seen is after that. *)
Lemma pick_latest (ms : list Moment) : ∀ m : Moment,
  let r := fold_left (λ res x, if isAfter x res then x else res) ms m in
  (r = m ∨ r ∈ ms) ∧ m ≤ r ∧ ∀ x, x ∈ ms → x ≤ r.
Proof.
  induction ms as [| y ms IH]; intros m; cbn [fold_left].
  - split; [by left |]. split; [lia |]. intros x Hx. by apply elem_of_nil in Hx.
  - assert ((if isAfter y m then y else m) = Z.max m y) as ->.
    { unfold isAfter. destruct (Z.ltb_spec m y); lia. }
    specialize (IH (Z.max m y)). cbn zeta in IH.
    set (r := fold_left _ ms (Z.max m y)) in *.
    destruct IH as (Hr & Hle & Hall). cbn zeta.
    split; [| split; [lia |]].
    + destruct Hr as [Hr | Hr]; [| by right; right].
      destruct (Z.max_spec m y) as [[_ Hmax] | [_ Hmax]].
      * right. rewrite Hr, Hmax. left.
      * left. by rewrite Hr, Hmax.
    + intros x [-> | Hx]%elem_of_cons; [lia | by apply Hall].
Qed.

Lemma moment_max_latest (ms : list Moment) (m : Moment) :
  m ∈ ms → (∀ x, x ∈ ms → x ≤ m) → moment_max ms = m.
Proof.
  destruct ms as [| y ms]; [by intros ?%elem_of_nil |].
  intros Hin Hall. cbn [moment_max].
  destruct (pick_latest ms y) as (Hr & Hle & Hms).
  set (r := fold_left _ ms y) in *. cbn in Hr, Hle, Hms.
  assert (r ≤ m) by (apply Hall; destruct Hr as [-> | Hr]; [left | by right]).
  apply elem_of_cons in Hin as [-> | Hin]; [lia |].
  specialize (Hms m Hin). lia.
Qed.

Lemma elem_of_Object_values {A} (o : gmap string A) (x : A) :
  x ∈ Object_values o ↔ ∃ k, o !! k = Some x.
Proof.
  unfold Object_values. rewrite list_elem_of_fmap. split.
  - intros [[k v] [-> Hkv]]. exists k. by apply elem_of_map_to_list.
  - intros [k Hk]. exists (k, x). split; [done |]. by apply elem_of_map_to_list.
Qed.

Lemma is_latest_due_date_sound (dues : gmap string Moment) (m : Moment) :
  is_latest_due_date dues m = true → latest_due_date dues m.
Proof.
  unfold is_latest_due_date.
  intros [Hin Hall]%andb_prop. apply bool_decide_eq_true_1 in Hin. split.
  - by apply elem_of_Object_values.
  - intros k d Hk. rewrite forallb_forall in Hall.
    apply Z.leb_le, Hall, list_elem_of_In, elem_of_Object_values. by exists k.
Qed.

(** The end date the validator computes is the maximum of the due
    dates. *)
Lemma moment_max_due_dates (dues : gmap string Moment) (m : Moment) :
  latest_due_date dues m →
  moment_max ((λ x, moment (Some x)) <$> Object_values dues) = m.
Proof.
  intros [[k Hk] Hall]. rewrite moment_fmap_values.
  apply moment_max_latest.
  - apply elem_of_Object_values. by exists k.
  - intros x [k' Hk']%elem_of_Object_values. by eapply Hall.
Qed.
End MomentMax.

(** ** Pace validator *)

Section Validator.
Context {R : Type} {clock : Clock} {helpers : DateHelpers}
  {calculator : PaceDueDatesCalculator R}.
Implicit Types (coursePace : CoursePace R) (blackoutDates : list BlackoutDate.t).

(** Once the maximum of the due dates is known, the validator is one
    comparison. *)
Lemma validator_compares coursePace (coursePaceItem : list (CoursePaceItem R))
    blackoutDates (start latest : Moment) :
  start_date coursePace = Some start →
  latest_due_date
    (getDueDates coursePaceItem (exclude_weekends coursePace)
       (selected_days_to_skip coursePace) blackoutDates (start_date coursePace))
    latest →
  isTimeToCompleteCalendarDaysValid coursePace coursePaceItem blackoutDates
  = (rawDaysBetweenInclusive (startOf_day start) latest
     <=? time_to_complete_calendar_days coursePace).
Proof.
  intros Hstart Hlatest. unfold isTimeToCompleteCalendarDaysValid.
  by rewrite (moment_max_due_dates _ _ Hlatest), Hstart, moment_wraps.
Qed.

(** C3: the validator answers [true] exactly when the inclusive
    calendar-day span from the start date of the pace to the maximum of
    the due dates the calculator returns is at most
    [time_to_complete_calendar_days]. *)
Theorem isTimeToCompleteCalendarDaysValid_span coursePace
    (coursePaceItem : list (CoursePaceItem R)) blackoutDates
    (start latest : Moment) :
  start_date coursePace = Some start →
  latest_due_date
    (getDueDates coursePaceItem (exclude_weekends coursePace)
       (selected_days_to_skip coursePace) blackoutDates (start_date coursePace))
    latest →
  isTimeToCompleteCalendarDaysValid coursePace coursePaceItem blackoutDates = true
  ↔ rawDaysBetweenInclusive (startOf_day start) latest
    ≤ time_to_complete_calendar_days coursePace.
Proof.
  intros Hstart Hlatest.
  rewrite (validator_compares _ _ _ start latest Hstart Hlatest).
  apply Z.leb_le.
Qed.

(** C6: the items of all modules are put in one sequence, module after
    module, the due dates are projected as the validator does, and the
    result is the inclusive span from the start date to the maximum due
    date, minus 1. *)
Theorem getTimeToCompleteCalendarDaysFromItemsDuration_span coursePace
    blackoutDates (start latest : Moment) :
  start_date coursePace = Some start →
  latest_due_date
    (getDueDates (concat (items <$> modules coursePace))
       (exclude_weekends coursePace) (selected_days_to_skip coursePace)
       blackoutDates (start_date coursePace))
    latest →
  getTimeToCompleteCalendarDaysFromItemsDuration coursePace blackoutDates
  = rawDaysBetweenInclusive (startOf_day start) latest - 1
  ∧ (isTimeToCompleteCalendarDaysValid coursePace
       (concat (items <$> modules coursePace)) blackoutDates = true
     ↔ getTimeToCompleteCalendarDaysFromItemsDuration coursePace blackoutDates + 1
       ≤ time_to_complete_calendar_days coursePace).
Proof.
  intros Hstart Hlatest.
  assert (getTimeToCompleteCalendarDaysFromItemsDuration coursePace blackoutDates
          = rawDaysBetweenInclusive (startOf_day start) latest - 1) as Hspan.
  { unfold getTimeToCompleteCalendarDaysFromItemsDuration.
    rewrite flat_map_concat_map.
    change (map items (modules coursePace)) with (items <$> modules coursePace).
    by rewrite (moment_max_due_dates _ _ Hlatest), Hstart, moment_wraps. }
  split; [exact Hspan |].
  rewrite (validator_compares _ _ _ start latest Hstart Hlatest), Hspan.
  rewrite Z.leb_le. lia.
Qed.
End Validator.

(** ** Durations from the time to complete *)

Section ItemsDurationFromTime.
Context {R : Type} {clock : Clock} {helpers : DateHelpers}.
Implicit Types (coursePace : CoursePace R) (blackOutDays : list BlackoutDate.t).

(** C4: a day budget below 1, an undefined start date, or a next
    eligible day that lies after the end of the day [start_date +
    calendarDays] gives the sentinel [{duration: 0, remainder: 0}],
    whatever the other arguments are. *)
Theorem getItemsDurationFromTimeToComplete_sentinel coursePace blackOutDays
    (calendarDays itemsLength : Z) :
  calendarDays < 1
  ∨ start_date coursePace = None
  ∨ (∃ start : Moment,
       start_date coursePace = Some start
       ∧ endOf_day (add_days start calendarDays)
         < addDays start 1 (exclude_weekends coursePace)
             (selected_days_to_skip coursePace) blackOutDays) →
  getItemsDurationFromTimeToComplete coursePace blackOutDays calendarDays itemsLength
  = sentinel.
Proof.
  intros Hcase. unfold getItemsDurationFromTimeToComplete.
  destruct (Z.ltb_spec calendarDays 1) as [Hlt | Hge]; [reflexivity |].
  destruct (start_date coursePace) as [start |] eqn:Hstart; [| reflexivity].
  rewrite bool_decide_eq_false_2 by discriminate.
  cbn [orb]. rewrite !moment_wraps.
  destruct Hcase as [Hlt | [Hnone | (start' & [= <-] & Hafter)]];
    [lia | discriminate |].
  unfold isAfter. by destruct (Z.ltb_spec
    (endOf_day (add_days start calendarDays))
    (addDays start 1 (exclude_weekends coursePace)
       (selected_days_to_skip coursePace) blackOutDays)); [| lia].
Qed.

(** C5: with a day budget of at least 1, a start date, a next eligible
    day that is not after the end date and a positive [itemsLength], the
    result is the quotient and the remainder of [E] by [itemsLength],
    where [E] is the count [daysBetween] returns for the adjusted start
    date and the end date: [duration * itemsLength + remainder = E] and
    [0 <= remainder < itemsLength]. *)
Theorem getItemsDurationFromTimeToComplete_divides coursePace blackOutDays
    (calendarDays itemsLength : Z) (start : Moment) :
  1 ≤ calendarDays →
  start_date coursePace = Some start →
  0 < itemsLength →
  let startDate :=
    addDays start 1 (exclude_weekends coursePace)
      (selected_days_to_skip coursePace) blackOutDays in
  let endDate := endOf_day (add_days start calendarDays) in
  let E :=
    daysBetween startDate endDate (exclude_weekends coursePace)
      (selected_days_to_skip coursePace) blackOutDays in
  startDate ≤ endDate →
  0 ≤ E →
  getItemsDurationFromTimeToComplete coursePace blackOutDays calendarDays itemsLength
  = {| ItemsDuration.duration := Int (E / itemsLength);
       ItemsDuration.remainder := Int (E mod itemsLength) |}
  ∧ E / itemsLength * itemsLength + E mod itemsLength = E
  ∧ 0 ≤ E mod itemsLength < itemsLength.
Proof.
  intros Hdays Hstart Hlen startDate endDate E Hrange HE.
  split.
  - unfold getItemsDurationFromTimeToComplete.
    destruct (Z.ltb_spec calendarDays 1) as [Hlt | _]; [lia |].
    rewrite Hstart, bool_decide_eq_false_2 by discriminate.
    cbn [orb]. rewrite !moment_wraps. fold startDate endDate.
    unfold isAfter. destruct (Z.ltb_spec endDate startDate) as [Hlt | _]; [lia |].
    fold E. unfold floor_div, js_rem.
    destruct (Z.eqb_spec itemsLength 0) as [Hz | _]; [lia |].
    by rewrite Z.rem_mod_nonneg by lia.
  - pose proof (Z.div_mod E itemsLength ltac:(lia)).
    pose proof (Z.mod_pos_bound E itemsLength Hlen). lia.
Qed.
End ItemsDurationFromTime.

(** ** Pace duration between two dates *)

Section PaceDuration.
Context {helpers : DateHelpers}.

(** C7: [calculatePaceDuration] is [calendarDaysToPaceDuration] of the
    inclusive day count between the two dates; when the day-counting
    primitive counts the days from a date to a later one inclusively,
    that is the pair of [d2 - d1 + 1] days, and the pace from 2022-01-01
    to 2022-01-10 lasts one week and three days. *)
Theorem calculatePaceDuration_inclusive_days :
  (∀ d1 d2 : Z, d1 ≤ d2 →
     rawDaysBetweenInclusive (d1 * msPerDay) (d2 * msPerDay) = d2 - d1 + 1) →
  (∀ startDate endDate : Moment,
     calculatePaceDuration startDate endDate
     = calendarDaysToPaceDuration (rawDaysBetweenInclusive startDate endDate))
  ∧ (∀ d1 d2 : Z, d1 ≤ d2 →
       calculatePaceDuration (d1 * msPerDay) (d2 * msPerDay)
       = calendarDaysToPaceDuration (d2 - d1 + 1))
  ∧ calculatePaceDuration (civil 2022 1 1) (civil 2022 1 10)
    = {| weeks := 1; days := 3 |}.
Proof.
  intros Hcount. split; [reflexivity |]. split.
  - intros d1 d2 Hle. unfold calculatePaceDuration. by rewrite Hcount.
  - unfold calculatePaceDuration, civil. by rewrite Hcount.
Qed.
End PaceDuration.

(** ** The statements on the pace of the tests

    The collaborators are the reference instance, the pace starts on
    Wednesday 2021-09-01 and its three items take two days each: they are
    due on 2021-09-03, 2021-09-05 and 2021-09-07. *)

Lemma isTimeToCompleteCalendarDaysValid_span_witness :
  start_date (sample_pace 7 false []) = Some (civil 2021 9 1)
  ∧ latest_due_date
      (DateStuff.getDueDates (clock := sample_clock) pace_items false [] []
         (Some (civil 2021 9 1)))
      (civil 2021 9 7)
  ∧ (isTimeToCompleteCalendarDaysValid (clock := sample_clock)
       (helpers := reference_helpers)
       (calculator := reference_calculator sample_clock unit)
       (sample_pace 7 false []) pace_items [] = true
     ↔ DateStuff.rawDaysBetweenInclusive (startOf_day (civil 2021 9 1)) (civil 2021 9 7)
       ≤ 7).
Proof.
  split; [reflexivity |].
  split; [apply is_latest_due_date_sound; vm_compute; reflexivity |].
  apply (isTimeToCompleteCalendarDaysValid_span (clock := sample_clock)
           (helpers := reference_helpers) (calculator := reference_calculator sample_clock unit)
           (sample_pace 7 false []) pace_items [] (civil 2021 9 1) (civil 2021 9 7));
    [reflexivity | apply is_latest_due_date_sound; vm_compute; reflexivity].
Defined.

Lemma getTimeToCompleteCalendarDaysFromItemsDuration_span_witness :
  start_date (sample_pace 7 false []) = Some (civil 2021 9 1)
  ∧ latest_due_date
      (DateStuff.getDueDates (clock := sample_clock)
         (concat (items <$> modules (sample_pace 7 false []))) false [] []
         (Some (civil 2021 9 1)))
      (civil 2021 9 7)
  ∧ getTimeToCompleteCalendarDaysFromItemsDuration (clock := sample_clock)
      (helpers := reference_helpers)
      (calculator := reference_calculator sample_clock unit)
      (sample_pace 7 false []) []
    = DateStuff.rawDaysBetweenInclusive (startOf_day (civil 2021 9 1)) (civil 2021 9 7)
      - 1
  ∧ (isTimeToCompleteCalendarDaysValid (clock := sample_clock)
       (helpers := reference_helpers)
       (calculator := reference_calculator sample_clock unit)
       (sample_pace 7 false [])
       (concat (items <$> modules (sample_pace 7 false []))) [] = true
     ↔ getTimeToCompleteCalendarDaysFromItemsDuration (clock := sample_clock)
         (helpers := reference_helpers)
         (calculator := reference_calculator sample_clock unit)
         (sample_pace 7 false []) [] + 1
       ≤ 7).
Proof.
  split; [reflexivity |].
  split; [apply is_latest_due_date_sound; vm_compute; reflexivity |].
  apply (getTimeToCompleteCalendarDaysFromItemsDuration_span (clock := sample_clock)
           (helpers := reference_helpers)
           (calculator := reference_calculator sample_clock unit)
           (sample_pace 7 false []) [] (civil 2021 9 1) (civil 2021 9 7));
    [reflexivity | apply is_latest_due_date_sound; vm_compute; reflexivity].
Defined.

(** With Thursdays and Fridays skipped the next eligible day after the
    start is Saturday 2021-09-04, after the end of a budget of one day. *)
Lemma getItemsDurationFromTimeToComplete_sentinel_witness :
  (∃ start : Moment,
     start_date (sample_pace 7 false ["thu"; "fri"]) = Some start
     ∧ endOf_day (add_days start 1)
       < DateStuff.addDays start 1 false ["thu"; "fri"] [])
  ∧ getItemsDurationFromTimeToComplete (clock := sample_clock)
      (helpers := reference_helpers) (sample_pace 7 false ["thu"; "fri"]) [] 1 3
    = sentinel.
Proof.
  assert (∃ start : Moment,
            start_date (sample_pace 7 false ["thu"; "fri"]) = Some start
            ∧ endOf_day (add_days start 1)
              < DateStuff.addDays start 1 false ["thu"; "fri"] []) as Hafter.
  { exists (civil 2021 9 1). split; [reflexivity | vm_compute; reflexivity]. }
  split; [exact Hafter |].
  apply (getItemsDurationFromTimeToComplete_sentinel (clock := sample_clock)
           (helpers := reference_helpers) (sample_pace 7 false ["thu"; "fri"]) [] 1 3).
  right. right. exact Hafter.
Defined.

(** Fourteen days from Wednesday 2021-09-01 without weekends: eight
    eligible days lie between Thursday 2021-09-02 and 2021-09-15, two for
    each of three items and two left over. *)
Lemma getItemsDurationFromTimeToComplete_divides_witness :
  let startDate := DateStuff.addDays (civil 2021 9 1) 1 true [] [] in
  let endDate := endOf_day (add_days (civil 2021 9 1) 14) in
  let E := DateStuff.daysBetween startDate endDate true [] [] in
  (1 ≤ 14 ∧ start_date (sample_pace 7 true []) = Some (civil 2021 9 1) ∧ 0 < 3
   ∧ startDate ≤ endDate ∧ 0 ≤ E ∧ E = 8)
  ∧ getItemsDurationFromTimeToComplete (clock := sample_clock)
      (helpers := reference_helpers) (sample_pace 7 true []) [] 14 3
    = {| ItemsDuration.duration := Int (E / 3);
         ItemsDuration.remainder := Int (E mod 3) |}
  ∧ E / 3 * 3 + E mod 3 = E
  ∧ 0 ≤ E mod 3 < 3.
Proof.
  intros startDate endDate E.
  assert (startDate ≤ endDate) as Hrange by (vm_compute; discriminate).
  assert (0 ≤ E) as HE by (vm_compute; discriminate).
  split.
  - split; [lia |]. split; [reflexivity |]. split; [lia |].
    split; [exact Hrange |]. split; [exact HE | vm_compute; reflexivity].
  - apply (getItemsDurationFromTimeToComplete_divides (clock := sample_clock)
             (helpers := reference_helpers) (sample_pace 7 true []) [] 14 3
             (civil 2021 9 1));
      [lia | reflexivity | lia | exact Hrange | exact HE].
Defined.

Lemma calculatePaceDuration_inclusive_days_witness :
  (∀ d1 d2 : Z, d1 ≤ d2 →
     DateStuff.rawDaysBetweenInclusive (d1 * msPerDay) (d2 * msPerDay) = d2 - d1 + 1)
  ∧ calculatePaceDuration (helpers := reference_helpers)
      (civil 2022 1 1) (civil 2022 1 10)
    = {| weeks := 1; days := 3 |}.
Proof.
  assert (∀ d1 d2 : Z, d1 ≤ d2 →
            DateStuff.rawDaysBetweenInclusive (d1 * msPerDay) (d2 * msPerDay)
            = d2 - d1 + 1) as Hcount.
  { intros d1 d2 _. unfold DateStuff.rawDaysBetweenInclusive.
    by rewrite !dayIndex_start_of_day. }
  split; [exact Hcount |].
  exact (proj2 (proj2 (calculatePaceDuration_inclusive_days
                         (helpers := reference_helpers) Hcount))).
Defined.

(** The five cases of the tests of the validator: a budget of 7 days
    holds the pace, a budget of 4 does not, and neither does a budget of 7
    when weekends are excluded, when Mondays and Tuesdays are skipped, or
    when 2021-09-02 and 2021-09-03 are blacked out. *)
Example isTimeToCompleteCalendarDaysValid_tests :
  let valid cp blackoutDates :=
    isTimeToCompleteCalendarDaysValid (clock := sample_clock)
      (helpers := reference_helpers)
      (calculator := reference_calculator sample_clock unit)
      cp pace_items blackoutDates in
  valid (sample_pace 7 false []) [] = true
  ∧ valid (sample_pace 4 false []) [] = false
  ∧ valid (sample_pace 7 true []) [] = false
  ∧ valid (sample_pace 7 false ["mon"; "tue"]) [] = false
  ∧ valid (sample_pace 7 false []) [spring_break] = false.
Proof. vm_compute. repeat split. Qed.

(** * Further properties of the utilities *)

(** ** Launcher ids *)

Lemma context_type_known (ty : string) :
  (∃ k, API_CONTEXT_TYPE_MAP !! k = Some ty) ∨ (∃ k, CONTEXT_TYPE_MAP !! k = Some ty) →
  ty ∈ ["Course"; "Section"; "Enrollment"; "BulkEnrollment"].
Proof.
  unfold API_CONTEXT_TYPE_MAP, CONTEXT_TYPE_MAP.
  intros [[k Hk] | [k Hk]];
    repeat (apply lookup_insert_Some in Hk as [[_ <-] | [_ Hk]]; [set_solver |]);
    by rewrite lookup_empty in Hk.
Qed.

(** X1: two pace contexts whose types come out of the context type tables
    get the same launcher id only when they have the same type and the
    same item id. *)
Theorem generateModalLauncherId_injective (p q : PaceContext) :
  (∃ k, API_CONTEXT_TYPE_MAP !! k = Some (type p))
  ∨ (∃ k, CONTEXT_TYPE_MAP !! k = Some (type p)) →
  (∃ k, API_CONTEXT_TYPE_MAP !! k = Some (type q))
  ∨ (∃ k, CONTEXT_TYPE_MAP !! k = Some (type q)) →
  generateModalLauncherId p = generateModalLauncherId q →
  type p = type q ∧ item_id p = item_id q.
Proof.
  intros Hp%context_type_known Hq%context_type_known.
  unfold generateModalLauncherId. destruct p as [tp ip], q as [tq iq]. cbn in *.
  rewrite !elem_of_cons, elem_of_nil in Hp, Hq.
  destruct Hp as [-> | [-> | [-> | [-> | []]]]];
    destruct Hq as [-> | [-> | [-> | [-> | []]]]];
    cbn; intros Heq; by simplify_eq/=.
Qed.

Lemma generateModalLauncherId_injective_witness :
  let p := {| type := "Course"; item_id := "7" |} in
  ((∃ k, API_CONTEXT_TYPE_MAP !! k = Some (type p))
   ∨ (∃ k, CONTEXT_TYPE_MAP !! k = Some (type p)))
  ∧ generateModalLauncherId p = "pace-modal-launcher-Course-7"
  ∧ type p = type p ∧ item_id p = item_id p.
Proof.
  intros p.
  assert ((∃ k, API_CONTEXT_TYPE_MAP !! k = Some (type p))
          ∨ (∃ k, CONTEXT_TYPE_MAP !! k = Some (type p))) as Hp.
  { left. exists "course". vm_compute. reflexivity. }
  split; [exact Hp |]. split; [reflexivity |].
  exact (generateModalLauncherId_injective p p Hp Hp eq_refl).
Defined.

(** ** The duration converter outside the non-negative day counts *)

(** X2: for a negative day count down to minus [Number.MAX_SAFE_INTEGER]
    that is not a multiple of 7 the pair does not rebuild the input:
    [days] lies between -6 and -1 and [weeks*7 + days] is the input
    minus 7. *)
Theorem calendarDaysToPaceDuration_negative_safe (calendarDays : Z) :
  - Double.MAX_SAFE_INTEGER ≤ calendarDays < 0 →
  days (Double.calendarDaysToPaceDuration calendarDays) ≠ 0 →
  -6 ≤ days (Double.calendarDaysToPaceDuration calendarDays) ≤ -1
  ∧ weeks (Double.calendarDaysToPaceDuration calendarDays) * 7
      + days (Double.calendarDaysToPaceDuration calendarDays) = calendarDays - 7.
Proof.
  unfold Double.MAX_SAFE_INTEGER. intros Hsafe.
  rewrite calendarDaysToPaceDuration_safe by lia.
  cbn [calendarDaysToPaceDuration weeks days]. intros Hrem.
  pose proof (Z.rem_bound_pos_neg calendarDays 7 ltac:(lia) ltac:(lia)) as Hbound.
  pose proof (Z.quot_rem calendarDays 7 ltac:(lia)) as Hqr.
  pose proof (Z.div_mod calendarDays 7 ltac:(lia)) as Hdm.
  pose proof (Z.mod_pos_bound calendarDays 7 ltac:(lia)) as Hmod.
  split; [lia |]. nia.
Qed.

Lemma calendarDaysToPaceDuration_negative_safe_witness :
  - Double.MAX_SAFE_INTEGER ≤ -10 < 0
  ∧ days (Double.calendarDaysToPaceDuration (-10)) ≠ 0
  ∧ -6 ≤ days (Double.calendarDaysToPaceDuration (-10)) ≤ -1
  ∧ weeks (Double.calendarDaysToPaceDuration (-10)) * 7
      + days (Double.calendarDaysToPaceDuration (-10)) = -10 - 7.
Proof.
  assert (- Double.MAX_SAFE_INTEGER ≤ -10 < 0) as Hsafe
    by (vm_compute; split; [discriminate | reflexivity]).
  split; [exact Hsafe |]. split; [vm_compute; discriminate |].
  apply (calendarDaysToPaceDuration_negative_safe (-10) Hsafe).
  vm_compute; discriminate.
Defined.

(** Below the safe integers the rounding can undo it: at
    -31525197391593480 the weeks and days rebuild the input. *)
Example calendarDaysToPaceDuration_negative_large :
  Double.representable (-31525197391593480) = true
  ∧ Double.calendarDaysToPaceDuration (-31525197391593480)
    = {| weeks := -4503599627370497; days := -1 |}
  ∧ -4503599627370497 * 7 + -1 = -31525197391593480.
Proof. vm_compute. repeat split. Qed.



(** ** The weighting applied again, and without weights *)

Lemma getDuration_falsy_or_stable (w : AssignmentWeightening) (ty : string) (d : Z) :
  falsy_or (getDuration w ty) (falsy_or (getDuration w ty) d)
  = falsy_or (getDuration w ty) d.
Proof.
  destruct (getDuration w ty) as [v |]; cbn; [| reflexivity].
  destruct (Z.eqb_spec v 0) as [Hv | Hv]; [reflexivity |].
  by destruct (Z.eqb_spec v 0).
Qed.

(** X6: weighting a list that is already weighted with the same weighting
    changes nothing. *)
Theorem calculatePaceItemDuration_idempotent {R : Type}
    (coursePaceItem : list (CoursePaceItem R)) (w : AssignmentWeightening) :
  calculatePaceItemDuration (calculatePaceItemDuration coursePaceItem w) w
  = calculatePaceItemDuration coursePaceItem w.
Proof.
  unfold calculatePaceItemDuration. rewrite map_map. apply map_ext.
  intros item. unfold withDuration. cbn [module_item_type duration id rest].
  by rewrite getDuration_falsy_or_stable.
Qed.

(** X7: when each of the four weights is undefined or 0 the items come
    back as they were. *)
Theorem calculatePaceItemDuration_no_weights {R : Type}
    (coursePaceItem : list (CoursePaceItem R)) (w : AssignmentWeightening) :
  Forall (λ weight, weight = None ∨ weight = Some 0)
    [assignment w; discussion w; quiz w; page w] →
  calculatePaceItemDuration coursePaceItem w = coursePaceItem.
Proof.
  intros Hw. unfold calculatePaceItemDuration.
  rewrite <- (map_id coursePaceItem) at 2. apply map_ext.
  intros [i ty d r]. unfold withDuration. cbn [module_item_type duration id rest].
  f_equal.
  assert (getDuration w ty = None ∨ getDuration w ty = Some 0) as [-> | ->];
    [| reflexivity | reflexivity].
  rewrite !Forall_cons in Hw. destruct Hw as (Ha & Hd & Hq & Hp & _).
  unfold getDuration. repeat case_match; auto.
Qed.

Lemma calculatePaceItemDuration_no_weights_witness :
  let w := {| assignment := Some 0; discussion := None; quiz := None; page := Some 0 |} in
  Forall (λ weight, weight = None ∨ weight = Some 0)
    [assignment w; discussion w; quiz w; page w]
  ∧ calculatePaceItemDuration sample_items w = sample_items.
Proof.
  intros w.
  assert (Forall (λ weight, weight = None ∨ weight = Some 0)
            [assignment w; discussion w; quiz w; page w]) as Hw.
  { repeat constructor; (by left) || (by right). }
  split; [exact Hw |].
  exact (calculatePaceItemDuration_no_weights sample_items w Hw).
Defined.

(** ** The validator and the budget *)

Section ValidatorBudget.
Context {R : Type} {clock : Clock} {helpers : DateHelpers}
  {calculator : PaceDueDatesCalculator R}.

(** X4: a pace that fits its budget fits every larger budget: the
    projected span does not depend on [time_to_complete_calendar_days]. *)
Theorem isTimeToCompleteCalendarDaysValid_larger_budget
    (coursePace : CoursePace R) (coursePaceItem : list (CoursePaceItem R))
    (blackoutDates : list BlackoutDate.t) (budget : Z) :
  time_to_complete_calendar_days coursePace ≤ budget →
  isTimeToCompleteCalendarDaysValid coursePace coursePaceItem blackoutDates = true →
  isTimeToCompleteCalendarDaysValid
    {| start_date := start_date coursePace;
       time_to_complete_calendar_days := budget;
       exclude_weekends := exclude_weekends coursePace;
       selected_days_to_skip := selected_days_to_skip coursePace;
       modules := modules coursePace |}
    coursePaceItem blackoutDates = true.
Proof.
  intros Hle Hvalid. unfold isTimeToCompleteCalendarDaysValid in *.
  cbn [start_date time_to_complete_calendar_days exclude_weekends
       selected_days_to_skip modules].
  apply Z.leb_le in Hvalid. apply Z.leb_le. lia.
Qed.

(** X5: when the calculator returns no due date at all, the end of the
    span is the current instant: the answer is the comparison of the span
    from the start date to now with the budget. *)
Theorem isTimeToCompleteCalendarDaysValid_no_due_dates
    (coursePace : CoursePace R) (coursePaceItem : list (CoursePaceItem R))
    (blackoutDates : list BlackoutDate.t) :
  getDueDates coursePaceItem (exclude_weekends coursePace)
    (selected_days_to_skip coursePace) blackoutDates (start_date coursePace) = ∅ →
  isTimeToCompleteCalendarDaysValid coursePace coursePaceItem blackoutDates
  = (rawDaysBetweenInclusive (startOf_day (moment (start_date coursePace))) now
     <=? time_to_complete_calendar_days coursePace).
Proof.
  intros Hempty. unfold isTimeToCompleteCalendarDaysValid.
  rewrite Hempty. unfold Object_values. by rewrite map_to_list_empty.
Qed.
End ValidatorBudget.

Lemma isTimeToCompleteCalendarDaysValid_larger_budget_witness :
  time_to_complete_calendar_days (sample_pace 7 false []) ≤ 9
  ∧ isTimeToCompleteCalendarDaysValid (clock := sample_clock)
      (helpers := reference_helpers)
      (calculator := reference_calculator sample_clock unit)
      (sample_pace 7 false []) pace_items [] = true
  ∧ isTimeToCompleteCalendarDaysValid (clock := sample_clock)
      (helpers := reference_helpers)
      (calculator := reference_calculator sample_clock unit)
      (sample_pace 9 false []) pace_items [] = true.
Proof.
  split; [vm_compute; discriminate |]. split; [vm_compute; reflexivity |].
  apply (isTimeToCompleteCalendarDaysValid_larger_budget (clock := sample_clock)
           (helpers := reference_helpers)
           (calculator := reference_calculator sample_clock unit)
           (sample_pace 7 false []) pace_items [] 9);
    [vm_compute; discriminate | vm_compute; reflexivity].
Defined.

Lemma isTimeToCompleteCalendarDaysValid_no_due_dates_witness :
  DateStuff.getDueDates (clock := sample_clock) (R := unit) [] false [] []
    (Some (civil 2021 9 1)) = ∅
  ∧ isTimeToCompleteCalendarDaysValid (clock := sample_clock)
      (helpers := reference_helpers)
      (calculator := reference_calculator sample_clock unit)
      (sample_pace 7 false []) [] []
    = (DateStuff.rawDaysBetweenInclusive (startOf_day (civil 2021 9 1))
         (civil 2021 8 15) <=? 7).
Proof.
  split; [reflexivity |].
  apply (isTimeToCompleteCalendarDaysValid_no_due_dates (clock := sample_clock)
           (helpers := reference_helpers)
           (calculator := reference_calculator sample_clock unit)
           (sample_pace 7 false []) [] []).
  reflexivity.
Defined.

(** ** Durations for no item *)

Section ItemsDurationZero.
Context {R : Type} {clock : Clock} {helpers : DateHelpers}.

(** X8: the division by [itemsLength] is not guarded: with a budget of at
    least one day, a start date and a next eligible day within the range,
    an [itemsLength] of 0 gives the remainder [NaN] and the duration [NaN]
    or [Infinity], never the sentinel. *)
Theorem getItemsDurationFromTimeToComplete_no_items (coursePace : CoursePace R)
    (blackOutDays : list BlackoutDate.t) (calendarDays : Z) (start : Moment) :
  1 ≤ calendarDays →
  start_date coursePace = Some start →
  let startDate :=
    addDays start 1 (exclude_weekends coursePace)
      (selected_days_to_skip coursePace) blackOutDays in
  let endDate := endOf_day (add_days start calendarDays) in
  let E :=
    daysBetween startDate endDate (exclude_weekends coursePace)
      (selected_days_to_skip coursePace) blackOutDays in
  startDate ≤ endDate →
  0 ≤ E →
  getItemsDurationFromTimeToComplete coursePace blackOutDays calendarDays 0
  = {| ItemsDuration.duration := if E =? 0 then NaN else Infinity;
       ItemsDuration.remainder := NaN |}
  ∧ getItemsDurationFromTimeToComplete coursePace blackOutDays calendarDays 0
    ≠ sentinel.
Proof.
  intros Hdays Hstart startDate endDate E Hrange HE.
  assert (getItemsDurationFromTimeToComplete coursePace blackOutDays calendarDays 0
          = {| ItemsDuration.duration := if E =? 0 then NaN else Infinity;
               ItemsDuration.remainder := NaN |}) as Hres.
  { unfold getItemsDurationFromTimeToComplete.
    destruct (Z.ltb_spec calendarDays 1) as [Hlt | _]; [lia |].
    rewrite Hstart, bool_decide_eq_false_2 by discriminate.
    cbn [orb]. rewrite !moment_wraps. fold startDate endDate.
    unfold isAfter. destruct (Z.ltb_spec endDate startDate) as [Hlt | _]; [lia |].
    fold E. unfold floor_div, js_rem. cbn [Z.eqb].
    destruct (Z.eqb_spec E 0) as [_ | Hnz]; [reflexivity |].
    by destruct (Z.ltb_spec 0 E) as [_ | Hle]; [| lia]. }
  split; [exact Hres |]. rewrite Hres. unfold sentinel. by destruct (E =? 0).
Qed.
End ItemsDurationZero.

Lemma getItemsDurationFromTimeToComplete_no_items_witness :
  let startDate := DateStuff.addDays (civil 2021 9 1) 1 true [] [] in
  let endDate := endOf_day (add_days (civil 2021 9 1) 14) in
  let E := DateStuff.daysBetween startDate endDate true [] [] in
  (1 ≤ 14 ∧ start_date (sample_pace 7 true []) = Some (civil 2021 9 1)
   ∧ startDate ≤ endDate ∧ 0 ≤ E)
  ∧ getItemsDurationFromTimeToComplete (clock := sample_clock)
      (helpers := reference_helpers) (sample_pace 7 true []) [] 14 0
    = {| ItemsDuration.duration := if E =? 0 then NaN else Infinity;
         ItemsDuration.remainder := NaN |}
  ∧ getItemsDurationFromTimeToComplete (clock := sample_clock)
      (helpers := reference_helpers) (sample_pace 7 true []) [] 14 0
    ≠ sentinel.
Proof.
  intros startDate endDate E.
  assert (startDate ≤ endDate) as Hrange by (vm_compute; discriminate).
  assert (0 ≤ E) as HE by (vm_compute; discriminate).
  split; [split; [lia | split; [reflexivity | split; [exact Hrange | exact HE]]] |].
  apply (getItemsDurationFromTimeToComplete_no_items (clock := sample_clock)
           (helpers := reference_helpers) (sample_pace 7 true []) [] 14
           (civil 2021 9 1));
    [lia | reflexivity | exact Hrange | exact HE].
Defined.

(** ** The time selection *)

Lemma startOf_day_dayIndex (m : Moment) : startOf_day m = dayIndex m * msPerDay.
Proof.
  unfold startOf_day, dayIndex. pose proof msPerDay_pos.
  pose proof (Z.div_mod m msPerDay ltac:(lia)). lia.
Qed.

Lemma dayIndex_add_days (m : Moment) (n : Z) :
  dayIndex (add_days m n) = dayIndex m + n.
Proof.
  unfold dayIndex, add_days. pose proof msPerDay_pos.
  rewrite Z.div_add by lia. reflexivity.
Qed.

Lemma endOf_day_dayIndex (m : Moment) :
  endOf_day m = dayIndex m * msPerDay + (msPerDay - 1).
Proof. unfold endOf_day. by rewrite startOf_day_dayIndex. Qed.

Lemma endOf_day_between (s e : Moment) :
  endOf_day e = add_days (endOf_day s) (dayIndex e - dayIndex s).
Proof. rewrite !endOf_day_dayIndex. unfold add_days. lia. Qed.

Section TimeSelectionProperties.
Context {R : Type} {clock : Clock} {helpers : DateHelpers}.

(** The day-counting primitive counts [n + 1] days from a moment to the
    moment [n] days later. *)
Hypothesis counts_inclusive : ∀ (s : Moment) (n : Z),
  0 ≤ n → rawDaysBetweenInclusive s (add_days s n) = n + 1.

Lemma setTimeToComplete_days (s e : Moment) :
  dayIndex s ≤ dayIndex e →
  fst (setTimeToComplete (Some s) (Some e)) = dayIndex e - dayIndex s + 1.
Proof.
  intros Hle. unfold setTimeToComplete. cbn [fst]. rewrite !moment_wraps.
  rewrite (endOf_day_between s e). apply counts_inclusive. lia.
Qed.

(** X9: for a pace without an end date and with a budget of at least one
    day, the end date the editor starts from gives back the budget: the
    days it recomputes are [time_to_complete_calendar_days] and the weeks
    and days shown are those of the budget. *)
Theorem setTimeToComplete_of_endDateValue (coursePace : CoursePace R)
    (start : Moment) :
  start_date coursePace = Some start →
  1 ≤ time_to_complete_calendar_days coursePace →
  setTimeToComplete (start_date coursePace) (Some (endDateValue coursePace None))
  = (time_to_complete_calendar_days coursePace,
     calendarDaysToPaceDuration (time_to_complete_calendar_days coursePace)).
Proof.
  intros Hstart Hbudget.
  assert (fst (setTimeToComplete (start_date coursePace)
                 (Some (endDateValue coursePace None)))
          = time_to_complete_calendar_days coursePace) as Hdays.
  { rewrite Hstart. unfold endDateValue. rewrite Hstart, moment_wraps.
    rewrite setTimeToComplete_days;
      rewrite (startOf_day_dayIndex (add_days _ _)), dayIndex_start_of_day,
        dayIndex_add_days, (startOf_day_dayIndex start), dayIndex_start_of_day;
      lia. }
  unfold setTimeToComplete in *. cbn [fst] in Hdays. by rewrite Hdays.
Qed.

(** X10: the day budget the editor computes from a start date and an end
    date on the same or a later day is the number of calendar days from
    the one to the other, both included, whatever the time of day of
    either. *)
Theorem setTimeToComplete_counts_days (startDate endDate : Moment) :
  dayIndex startDate ≤ dayIndex endDate →
  setTimeToComplete (Some startDate) (Some endDate)
  = (dayIndex endDate - dayIndex startDate + 1,
     calendarDaysToPaceDuration (dayIndex endDate - dayIndex startDate + 1)).
Proof.
  intros Hle. pose proof (setTimeToComplete_days _ _ Hle) as Hdays.
  unfold setTimeToComplete in *. cbn [fst] in Hdays. by rewrite Hdays.
Qed.

(** X11: provided the day-counting primitive counts [n + 1] days between
    moments [n] days apart and the end date is on the day of the start
    date or on a later day, the up arrow of the days input, with an
    integer shown, moves the end date so that the day budget grows by one,
    and the up arrow of the weeks input so that it grows by seven; the
    down arrow of the same input, with a positive integer shown, then
    brings the end date back. *)
Theorem updateEndDate_add (value value' : Z) (unit : Unit)
    (startDate endDate : Moment) :
  dayIndex startDate ≤ dayIndex endDate →
  0 < value' →
  fst (setTimeToComplete (Some startDate)
         (updateEndDate (Int value) unit (Some endDate) add))
  = fst (setTimeToComplete (Some startDate) (Some endDate))
    + match unit with weeks_unit => 7 | days_unit => 1 end
  ∧ updateEndDate (Int value') unit
      (updateEndDate (Int value) unit (Some endDate) add) subtract
    = Some endDate.
Proof.
  intros Hle Hpos. split.
  - unfold updateEndDate. cbn [isInteger negb orb nonPositive Operation_eqb andb].
    rewrite Bool.andb_false_r, moment_wraps.
    rewrite !setTimeToComplete_days; [| done |];
      destruct unit; unfold add_unit; rewrite ?dayIndex_add_days; lia.
  - unfold updateEndDate. cbn [isInteger negb orb nonPositive Operation_eqb andb].
    rewrite Bool.andb_false_r, !moment_wraps.
    destruct (Z.leb_spec value' 0) as [Hneg | _]; [lia |]. cbn [andb].
    f_equal. destruct unit; unfold add_unit, add_days; lia.
Qed.

End TimeSelectionProperties.

Lemma reference_counts_inclusive (s : Moment) (n : Z) :
  0 ≤ n → DateStuff.rawDaysBetweenInclusive s (add_days s n) = n + 1.
Proof.
  intros _. unfold DateStuff.rawDaysBetweenInclusive.
  rewrite dayIndex_add_days. lia.
Qed.

Lemma setTimeToComplete_of_endDateValue_witness :
  start_date (sample_pace 10 false []) = Some (civil 2021 9 1)
  ∧ 1 ≤ time_to_complete_calendar_days (sample_pace 10 false [])
  ∧ setTimeToComplete (clock := sample_clock) (helpers := reference_helpers)
      (start_date (sample_pace 10 false []))
      (Some (endDateValue (clock := sample_clock) (sample_pace 10 false []) None))
    = (10, {| weeks := 1; days := 3 |}).
Proof.
  split; [reflexivity |]. split; [vm_compute; discriminate |].
  apply (setTimeToComplete_of_endDateValue (clock := sample_clock)
           (helpers := reference_helpers) reference_counts_inclusive
           (sample_pace 10 false []) (civil 2021 9 1));
    [reflexivity | vm_compute; discriminate].
Defined.

Lemma setTimeToComplete_counts_days_witness :
  dayIndex (civil 2022 1 1 + 3600000) ≤ dayIndex (civil 2022 1 10)
  ∧ setTimeToComplete (clock := sample_clock) (helpers := reference_helpers)
      (Some (civil 2022 1 1 + 3600000)) (Some (civil 2022 1 10))
    = (10, {| weeks := 1; days := 3 |}).
Proof.
  split; [vm_compute; discriminate |].
  apply (setTimeToComplete_counts_days (clock := sample_clock)
           (helpers := reference_helpers) reference_counts_inclusive
           (civil 2022 1 1 + 3600000) (civil 2022 1 10)).
  vm_compute; discriminate.
Defined.

Lemma updateEndDate_add_witness :
  dayIndex (civil 2022 1 1) ≤ dayIndex (civil 2022 1 10) ∧ 0 < 2
  ∧ fst (setTimeToComplete (clock := sample_clock) (helpers := reference_helpers)
           (Some (civil 2022 1 1))
           (updateEndDate (clock := sample_clock) (Int 1) weeks_unit
              (Some (civil 2022 1 10)) add))
    = fst (setTimeToComplete (clock := sample_clock) (helpers := reference_helpers)
             (Some (civil 2022 1 1)) (Some (civil 2022 1 10))) + 7
  ∧ updateEndDate (clock := sample_clock) (Int 2) weeks_unit
      (updateEndDate (clock := sample_clock) (Int 1) weeks_unit
         (Some (civil 2022 1 10)) add) subtract
    = Some (civil 2022 1 10).
Proof.
  split; [vm_compute; discriminate |]. split; [lia |].
  apply (updateEndDate_add (clock := sample_clock) (helpers := reference_helpers)
           reference_counts_inclusive 1 2 weeks_unit (civil 2022 1 1)
           (civil 2022 1 10));
    [vm_compute; discriminate | lia].
Defined.


(** * Properties of the dialog that messages students *)

(** ** Lists split by two tests *)

Section FilterLemmas.
Context {A : Type}.
Implicit Types (p q t : A → bool) (l : list A).

Lemma filter_bool_cons p x l :
  filter (λ y, p y = true) (x :: l)
  = if p x then x :: filter (λ y, p y = true) l else filter (λ y, p y = true) l.
Proof.
  destruct (p x) eqn:Hp.
  - by rewrite filter_cons_True.
  - rewrite filter_cons_False; [done | by rewrite Hp].
Qed.

(** Two tests that exclude each other split what either selects. *)
Lemma filter_bool_split p q t l :
  (∀ x, p x = true → q x = false) →
  (∀ x, t x = p x || q x) →
  filter (λ x, p x = true) l ++ filter (λ x, q x = true) l
  ≡ₚ filter (λ x, t x = true) l.
Proof.
  intros Hexcl Hor. induction l as [| x l IH]; [done |].
  rewrite !filter_bool_cons, Hor.
  destruct (p x) eqn:Hp; cbn [orb].
  - rewrite (Hexcl x Hp). cbn. by rewrite IH.
  - destruct (q x); [| exact IH].
    rewrite <- Permutation_middle. by rewrite IH.
Qed.

Lemma filter_bool_sublist p q l :
  (∀ x, p x = true → q x = true) →
  filter (λ x, p x = true) l `sublist_of` filter (λ x, q x = true) l.
Proof.
  intros Himpl. induction l as [| x l IH]; [done |].
  rewrite !filter_bool_cons. destruct (p x) eqn:Hp.
  - rewrite (Himpl x Hp). by apply sublist_skip.
  - destruct (q x); [by apply sublist_cons | exact IH].
Qed.

Lemma filter_bool_all p l :
  (∀ x, p x = true) → filter (λ x, p x = true) l = l.
Proof.
  intros Hall. induction l as [| x l IH]; [done |].
  by rewrite filter_bool_cons, Hall, IH.
Qed.
End FilterLemmas.

(** ** The filter of the students *)

Lemma findCriterion_value (v : MessageStudentsWho.FilterCriterionValue) :
  MessageStudentsWho.value <$> MessageStudentsWho.findCriterion v = Some v.
Proof. by destruct v. Qed.

Section FilterStudents.
Import MessageStudentsWho.
Context {number : Type} (gt : number → number → bool).
Implicit Types (students : list (Student (number := number))) (cutoff : number).

(** The loop keeps the students the [switch] selects, in their order. *)
Lemma filterStudents_filter (criterion : option FilterCriterion) students cutoff :
  filterStudents gt criterion students cutoff
  = filter (λ student, selects gt criterion student cutoff = true) students.
Proof.
  unfold filterStudents.
  enough (∀ acc,
    fold_left
      (λ newfilteredStudents student,
         if selects gt criterion student cutoff
         then newfilteredStudents ++ [student] else newfilteredStudents)
      students acc
    = acc ++ filter (λ student, selects gt criterion student cutoff = true) students)
    as Hgen by apply (Hgen []).
  induction students as [| s students IH]; intros acc; cbn [fold_left].
  - by rewrite app_nil_r.
  - rewrite IH, filter_bool_cons.
    destruct (selects gt criterion s cutoff); [by rewrite <- app_assoc | done].
Qed.

(** X13: the filtered students are students of the input, in the order of
    the input, and exactly those the criterion selects; without a
    criterion nobody is selected. *)
Theorem filterStudents_selects (criterion : option FilterCriterion) students cutoff :
  filterStudents gt criterion students cutoff `sublist_of` students
  ∧ (∀ student,
       student ∈ filterStudents gt criterion students cutoff
       ↔ student ∈ students ∧ selects gt criterion student cutoff = true)
  ∧ filterStudents gt None students cutoff = [].
Proof.
  split; [| split].
  - rewrite filterStudents_filter. apply sublist_filter.
  - intros student. rewrite filterStudents_filter, list_elem_of_filter. tauto.
  - rewrite filterStudents_filter.
    induction students as [| s students IH]; [done |].
    by rewrite filter_bool_cons.
Qed.

(** X14: every student is either among those who have submitted or among
    those who have not, never both: the two lists together are a
    rearrangement of the students. *)
Theorem filterStudents_submitted_or_not students cutoff :
  filterStudents gt (findCriterion submitted) students cutoff
  ++ filterStudents gt (findCriterion unsubmitted) students cutoff
  ≡ₚ students.
Proof.
  rewrite !filterStudents_filter.
  rewrite (filter_bool_split _ _ (λ _, true)).
  - by rewrite filter_bool_all.
  - intros s. unfold selects. rewrite !findCriterion_value.
    by intros ->.
  - intros s. unfold selects. rewrite !findCriterion_value.
    by destruct (bool_decide _).
Qed.

(** X15: the students who have submitted are split into those who have
    been graded and those who have not: the two lists together are a
    rearrangement of the submitted ones. *)
Theorem filterStudents_graded_or_not students cutoff :
  filterStudents gt (findCriterion submitted_and_graded) students cutoff
  ++ filterStudents gt (findCriterion submitted_and_not_graded) students cutoff
  ≡ₚ filterStudents gt (findCriterion submitted) students cutoff.
Proof.
  rewrite !filterStudents_filter. apply filter_bool_split.
  - intros s. unfold selects. rewrite !findCriterion_value.
    destruct (bool_decide _), (truthy_string _), (String.eqb _ _); by cbn.
  - intros s. unfold selects. rewrite !findCriterion_value.
    by destruct (bool_decide _), (truthy_string _), (String.eqb _ _).
Qed.

(** X16: skipping the excused keeps a part of those who have not
    submitted, in the same order, and all of them when no student is
    excused. *)
Theorem filterStudents_skip_excused students cutoff :
  filterStudents gt (findCriterion unsubmitted_skip_excused) students cutoff
  `sublist_of` filterStudents gt (findCriterion unsubmitted) students cutoff
  ∧ (Forall (λ student, truthy_bool (excused student) = false) students →
     filterStudents gt (findCriterion unsubmitted_skip_excused) students cutoff
     = filterStudents gt (findCriterion unsubmitted) students cutoff).
Proof.
  rewrite !filterStudents_filter. split.
  - apply filter_bool_sublist. intros s. unfold selects.
    rewrite !findCriterion_value. by intros [? _]%andb_prop.
  - intros Hnone. induction Hnone as [| s students Hs _ IH]; [done |].
    rewrite !filter_bool_cons, IH. unfold selects at 1 3.
    rewrite !findCriterion_value, Hs. by rewrite Bool.andb_true_r.
Qed.

(** X17: no student is at once above and below the cutoff, and a student
    without a score is in neither list; the same holds for the total
    grade. *)
Theorem filterStudents_above_below students cutoff (student : Student) :
  (∀ a b, gt a b = true → gt b a = false) →
  ¬ (student ∈ filterStudents gt (findCriterion scored_more_than) students cutoff
     ∧ student ∈ filterStudents gt (findCriterion scored_less_than) students cutoff)
  ∧ ¬ (student ∈ filterStudents gt (findCriterion total_grade_higher_than) students cutoff
       ∧ student ∈ filterStudents gt (findCriterion total_grade_lower_than) students cutoff)
  ∧ (score student = None →
     (student ∉ filterStudents gt (findCriterion scored_more_than) students cutoff)
     ∧ (student ∉ filterStudents gt (findCriterion scored_less_than) students cutoff))
  ∧ (currentScore student = None →
     (student ∉ filterStudents gt (findCriterion total_grade_higher_than) students cutoff)
     ∧ (student ∉ filterStudents gt (findCriterion total_grade_lower_than) students cutoff)).
Proof.
  intros Hasym. rewrite !filterStudents_filter, !list_elem_of_filter.
  unfold selects. rewrite !findCriterion_value. unfold numberAbove, numberBelow.
  split; [| split; [| split]].
  - intros [[Hmore _] [Hless _]]. destruct (score student) as [x |]; [| done].
    by rewrite (Hasym _ _ Hmore) in Hless.
  - intros [[Hmore _] [Hless _]]. destruct (currentScore student) as [x |]; [| done].
    by rewrite (Hasym _ _ Hmore) in Hless.
  - intros ->. split; by intros [? _].
  - intros ->. split; by intros [? _].
Qed.

(** X18: a student whose submission is pending review counts as not
    graded: the student is among the ungraded, among the submitted and not
    graded when there is a submission, and never among the submitted and
    graded, whatever the grade. *)
Theorem filterStudents_pending_review students cutoff (student : Student) :
  student ∈ students →
  workflowState student = "pending_review" →
  student ∈ filterStudents gt (findCriterion ungraded) students cutoff
  ∧ (student ∉ filterStudents gt (findCriterion submitted_and_graded) students cutoff)
  ∧ (is_Some (submittedAt student) →
     student ∈ filterStudents gt (findCriterion submitted_and_not_graded)
                 students cutoff).
Proof.
  intros Hin Hstate. rewrite !filterStudents_filter, !list_elem_of_filter.
  unfold selects. rewrite !findCriterion_value, Hstate. cbn [String.eqb].
  split; [| split].
  - split; [| done]. by rewrite Bool.orb_true_r.
  - intros [Hsel _]. by rewrite Bool.andb_false_r in Hsel.
  - intros Hsub. split; [| done].
    by rewrite bool_decide_eq_true_2, Bool.orb_true_r.
Qed.
End FilterStudents.

Lemma filterStudents_above_below_witness :
  (∀ a b : Z, (a >? b) = true → (b >? a) = false)
  ∧ ¬ (pending_student
         ∈ MessageStudentsWho.filterStudents Z.gtb
             (MessageStudentsWho.findCriterion MessageStudentsWho.scored_more_than)
             (pending_student :: sample_students) 7
       ∧ pending_student
           ∈ MessageStudentsWho.filterStudents Z.gtb
               (MessageStudentsWho.findCriterion MessageStudentsWho.scored_less_than)
               (pending_student :: sample_students) 7).
Proof.
  assert (∀ a b : Z, (a >? b) = true → (b >? a) = false) as Hasym.
  { intros a b. rewrite !Z.gtb_ltb, Z.ltb_lt, Z.ltb_ge. lia. }
  split; [exact Hasym |].
  exact (proj1 (filterStudents_above_below Z.gtb (pending_student :: sample_students)
                  7 pending_student Hasym)).
Defined.

Lemma filterStudents_pending_review_witness :
  pending_student ∈ pending_student :: sample_students
  ∧ MessageStudentsWho.workflowState pending_student = "pending_review"
  ∧ pending_student
      ∈ MessageStudentsWho.filterStudents Z.gtb
          (MessageStudentsWho.findCriterion MessageStudentsWho.ungraded)
          (pending_student :: sample_students) 0.
Proof.
  split; [left |]. split; [reflexivity |].
  refine (proj1 (filterStudents_pending_review Z.gtb (pending_student :: sample_students)
                   0 pending_student _ _)); [left | reflexivity].
Defined.

(** The filter on the sample students: the first and the third have
    submitted, the first is graded. *)
Example filterStudents_sample :
  MessageStudentsWho.id
    <$> MessageStudentsWho.filterStudents Z.gtb
          (MessageStudentsWho.findCriterion MessageStudentsWho.submitted)
          sample_students 0
  = ["100"; "102"]
  ∧ MessageStudentsWho.id
      <$> MessageStudentsWho.filterStudents Z.gtb
            (MessageStudentsWho.findCriterion MessageStudentsWho.submitted_and_graded)
            sample_students 0
    = ["100"]
  ∧ MessageStudentsWho.id
      <$> MessageStudentsWho.filterStudents Z.gtb
            (MessageStudentsWho.findCriterion MessageStudentsWho.scored_more_than)
            sample_students 9
    = [].
Proof. vm_compute. repeat split. Qed.

(** ** The criteria *)

Section Criteria.
Import MessageStudentsWho.

Lemma elem_of_filterCriteria (c : FilterCriterion) :
  c ∈ filterCriteria →
  Exists (λ c', c = c') filterCriteria.
Proof. intros Hc. apply Exists_exists. by exists c. Qed.

(** X19: some criterion is always on offer, so the first one is there for
    the initial filter and subject; without an assignment the criteria on
    offer are the two on the total grade, and with an assignment they
    include "have not been graded" and none on the total grade, and never
    one of the three criteria that only the radio buttons and the checkbox
    reach. *)
Theorem availableCriteria_offer (assignment : option Assignment) :
  (∃ c, head (availableCriteria assignment) = Some c)
  ∧ (assignment = None →
     value <$> availableCriteria assignment
     = [total_grade_higher_than; total_grade_lower_than])
  ∧ (is_Some assignment →
     ungraded ∈ value <$> availableCriteria assignment
     ∧ ∀ c, c ∈ availableCriteria assignment →
         value c ∉ [total_grade_higher_than; total_grade_lower_than;
                    submitted_and_graded; submitted_and_not_graded;
                    unsubmitted_skip_excused]).
Proof.
  assert (is_Some assignment →
          ungraded ∈ value <$> availableCriteria assignment) as Hungraded.
  { intros [a ->]. apply list_elem_of_fmap.
    exists {| requiresCutoff := false;
              shouldShow := λ assignment, bool_decide (is_Some assignment);
              title := "Have not been graded"; value := ungraded |}.
    split; [reflexivity |]. apply list_elem_of_filter. split; [reflexivity |].
    unfold filterCriteria. set_solver. }
  split; [| split].
  - destruct assignment as [a |]; [| by eexists].
    specialize (Hungraded ltac:(by eexists)).
    destruct (availableCriteria (Some a)) as [| c l]; [| by exists c].
    by apply elem_of_nil in Hungraded.
  - by intros ->.
  - intros Hsome. split; [by apply Hungraded |]. destruct Hsome as [a ->].
    intros c [Hshow Hc]%list_elem_of_filter.
    apply elem_of_filterCriteria in Hc. unfold filterCriteria in Hc.
    repeat (apply Exists_cons in Hc as [-> | Hc];
            [first [ discriminate Hshow
                   | cbn [value]; rewrite !elem_of_cons, elem_of_nil;
                     intros Hin; decompose [or] Hin; done ] |]).
    by apply Exists_nil in Hc.
Qed.

(** X20: each of the twelve criterion values is the value of exactly one
    criterion of the table, and looking a value up finds that criterion,
    so the handlers that look a criterion up always find it. *)
Theorem findCriterion_total (v : FilterCriterionValue) :
  NoDup (value <$> filterCriteria)
  ∧ ∃ c, findCriterion v = Some c ∧ c ∈ filterCriteria ∧ value c = v.
Proof.
  split.
  - apply (bool_decide_unpack _). by vm_compute.
  - destruct (findCriterion v) as [c |] eqn:Hfind.
    + exists c. split; [done |].
      pose proof (findCriterion_value v) as Hv. rewrite Hfind in Hv.
      split; [| by injection Hv].
      unfold findCriterion in Hfind.
      destruct (list_find _ _) as [[i c'] |] eqn:Hlf; [| done].
      injection Hfind as ->. apply list_find_Some in Hlf as (Hi & _ & _).
      by eapply list_elem_of_lookup_2.
    + pose proof (findCriterion_value v) as Hv. by rewrite Hfind in Hv.
Qed.
End Criteria.

(** ** Observers by student *)

Section Observers.
Import MessageStudentsWho.
Implicit Types (results : gmap string (list User)) (e : ObserverEnrollment).

Lemma existsb_observer (l : list User) (u : User) :
  existsb (λ u', String.eqb (_id u') (_id u)) l = true ↔ _id u ∈ _id <$> l.
Proof.
  rewrite existsb_exists, list_elem_of_fmap. split.
  - intros (u' & Hin & Heq%String.eqb_eq). exists u'.
    split; [done | by apply list_elem_of_In].
  - intros (u' & Heq & Hin). exists u'.
    split; [by apply list_elem_of_In | by apply String.eqb_eq].
Qed.

(** What one enrollment changes: the list of its student, at the end. *)
Lemma addObserver_lookup results e (k : string) :
  addObserver results e !! k
  = if decide (k = associatedUser e) then
      Some (default [] (results !! k)
            ++ if bool_decide (_id (user e) ∈ _id <$> default [] (results !! k))
               then [] else [user e])
    else results !! k.
Proof.
  unfold addObserver.
  destruct (existsb _ _) eqn:Hex; case_decide as Hk; subst.
  - apply existsb_observer in Hex.
    by rewrite lookup_insert_eq, bool_decide_eq_true_2, app_nil_r.
  - by rewrite lookup_insert_ne.
  - rewrite lookup_insert_eq, bool_decide_eq_false_2; [done |].
    intros Hin%existsb_observer. by rewrite Hin in Hex.
  - by rewrite lookup_insert_ne.
Qed.

Lemma observersByStudentID_snoc (l : list ObserverEnrollment) e :
  observersByStudentID (l ++ [e]) = addObserver (observersByStudentID l) e.
Proof. unfold observersByStudentID. by rewrite fold_left_app. Qed.

(** X21: in [observersByStudentID] every student that is a key has at
    least one observer, and no two observers of a student have the same
    [_id]. *)
Theorem observersByStudentID_distinct (observerEnrollments : list ObserverEnrollment)
    (studentId : string) (observers : list User) :
  observersByStudentID observerEnrollments !! studentId = Some observers →
  observers ≠ [] ∧ NoDup (_id <$> observers).
Proof.
  revert studentId observers.
  induction observerEnrollments as [| e l IH] using rev_ind; intros k obs.
  - unfold observersByStudentID. cbn. by rewrite lookup_empty.
  - rewrite observersByStudentID_snoc, addObserver_lookup.
    case_decide as Hk; [| apply IH]. subst k. intros [= <-].
    destruct (observersByStudentID l !! associatedUser e) as [old |] eqn:Hold;
      cbn [default].
    + destruct (IH _ _ Hold) as [Hne Hnodup]. case_bool_decide as Hin.
      * by rewrite app_nil_r.
      * split; [by destruct old |].
        rewrite fmap_app. apply NoDup_app. split; [done |].
        split; [| apply NoDup_singleton].
        intros x Hx. cbn. rewrite list_elem_of_singleton. by intros ->.
    + rewrite bool_decide_eq_false_2 by (cbn; apply not_elem_of_nil).
      split; [done |]. cbn. apply NoDup_singleton.
Qed.

(** X22: every enrollment is accounted for, and nothing else is: the
    observer of an enrollment is, by its [_id], among the observers of the
    student it observes, and every observer listed under a student comes
    from an enrollment of that observer with that student. *)
Theorem observersByStudentID_complete (observerEnrollments : list ObserverEnrollment) :
  (∀ e, e ∈ observerEnrollments →
     ∃ observers,
       observersByStudentID observerEnrollments !! associatedUser e = Some observers
       ∧ _id (user e) ∈ _id <$> observers)
  ∧ (∀ studentId observers u,
       observersByStudentID observerEnrollments !! studentId = Some observers →
       u ∈ observers →
       ∃ e, e ∈ observerEnrollments ∧ associatedUser e = studentId ∧ user e = u).
Proof.
  induction observerEnrollments as [| e l [IHc IHs]] using rev_ind.
  - split; [by intros e ?%elem_of_nil |].
    intros k obs u. unfold observersByStudentID. cbn. by rewrite lookup_empty.
  - split.
    + intros e' [He' | ->%list_elem_of_singleton]%elem_of_app.
      * destruct (IHc e' He') as (obs & Hobs & Hin).
        rewrite observersByStudentID_snoc, addObserver_lookup.
        case_decide as Hk; [| by exists obs].
        rewrite Hobs. cbn [default]. eexists. split; [done |].
        rewrite fmap_app. apply elem_of_app. by left.
      * rewrite observersByStudentID_snoc, addObserver_lookup.
        rewrite decide_True by done. eexists. split; [done |].
        rewrite fmap_app. apply elem_of_app. case_bool_decide as Hin; [by left |].
        right. cbn. by apply list_elem_of_singleton.
    + intros k obs u. rewrite observersByStudentID_snoc, addObserver_lookup.
      case_decide as Hk.
      * subst k. intros [= <-] [Hu | Hu]%elem_of_app.
        -- destruct (observersByStudentID l !! associatedUser e) as [old |] eqn:Hold;
             [| by apply elem_of_nil in Hu].
           destruct (IHs _ _ _ Hold Hu) as (e' & He' & Hk' & Hu').
           exists e'. split; [apply elem_of_app; by left | done].
        -- case_bool_decide; [by apply elem_of_nil in Hu |].
           apply list_elem_of_singleton in Hu as ->.
           exists e. split; [apply elem_of_app; right; by apply list_elem_of_singleton |].
           done.
      * intros Hobs Hu. destruct (IHs _ _ _ Hobs Hu) as (e' & He' & Hk' & Hu').
        exists e'. split; [apply elem_of_app; by left | done].
Qed.
End Observers.

Lemma observersByStudentID_distinct_witness :
  ∃ observers,
    MessageStudentsWho.observersByStudentID sample_enrollments !! "100" = Some observers
    ∧ MessageStudentsWho._id <$> observers = ["200"; "201"]
    ∧ observers ≠ [] ∧ NoDup (MessageStudentsWho._id <$> observers).
Proof.
  eexists. split; [vm_compute; reflexivity |]. split; [reflexivity |].
  apply (observersByStudentID_distinct sample_enrollments "100").
  vm_compute; reflexivity.
Defined.

(** ** Selected observers *)

Section SelectedObservers.
Import MessageStudentsWho.
Context {number : Type}.
Implicit Types (students : list (Student (number := number)))
  (selectedObservers : gmap string (list string)).

Lemma calculateObserverRecipientCount_sum selectedObservers :
  calculateObserverRecipientCount selectedObservers
  = sum_list_with length (Object_values selectedObservers).
Proof.
  unfold calculateObserverRecipientCount.
  enough (∀ (l : list (list string)) (acc : nat),
            fold_left (λ acc array, (acc + length array)%nat) l acc
            = (acc + sum_list_with length l)%nat) as Hgen by apply (Hgen _ 0%nat).
  induction l as [| x l IH]; intros acc; cbn; [lia |]. rewrite IH. lia.
Qed.

Lemma calculateObserverRecipientCount_insert selectedObservers (k : string)
    (l : list string) :
  selectedObservers !! k = None →
  calculateObserverRecipientCount (<[k := l]> selectedObservers)
  = (length l + calculateObserverRecipientCount selectedObservers)%nat.
Proof.
  intros Hfresh. rewrite !calculateObserverRecipientCount_sum. unfold Object_values.
  by rewrite (map_to_list_insert _ _ _ Hfresh).
Qed.

Lemma observerCount_snoc students (s : Student) (observers : gmap string (list User)) :
  observerCount (students ++ [s]) observers
  = (observerCount students observers
     + length (default [] (observers !! id s)))%nat.
Proof.
  unfold observerCount. rewrite fold_left_app. cbn.
  by destruct (observers !! id s).
Qed.

Lemma selectAllObservers_snoc students (s : Student)
    (observers : gmap string (list User)) :
  selectAllObservers (students ++ [s]) observers
  = <[id s := _id <$> default [] (observers !! id s)]>
      (selectAllObservers students observers).
Proof. unfold selectAllObservers. by rewrite fold_left_app. Qed.

Lemma selectAllObservers_keys students (observers : gmap string (list User))
    (k : string) :
  is_Some (selectAllObservers students observers !! k) ↔ k ∈ id <$> students.
Proof.
  induction students as [| s l IH] using rev_ind.
  - unfold selectAllObservers. cbn. rewrite lookup_empty, elem_of_nil.
    split; [by intros [? ?] | done].
  - rewrite selectAllObservers_snoc, lookup_insert_is_Some, IH, fmap_app, elem_of_app.
    cbn. rewrite list_elem_of_singleton.
    destruct (decide (id s = k)); intuition congruence.
Qed.

(** X23: when the students have distinct ids, selecting all observers
    selects as many as [observerCount] counts for these students, which is
    what lets the checkbox of the observers show as checked. *)
Theorem selectAllObservers_count students (observers : gmap string (list User)) :
  NoDup (id <$> students) →
  calculateObserverRecipientCount (selectAllObservers students observers)
  = observerCount students observers
  ∧ checked (checkboxFlags
               (calculateObserverRecipientCount (selectAllObservers students observers))
               (observerCount students observers))
    = negb (observerCount students observers =? 0)%nat.
Proof.
  intros Hnodup.
  assert (calculateObserverRecipientCount (selectAllObservers students observers)
          = observerCount students observers) as Hcount.
  { induction students as [| s l IH] using rev_ind; [done |].
    rewrite fmap_app in Hnodup. apply NoDup_app in Hnodup as (Hl & Hs & _).
    rewrite selectAllObservers_snoc, observerCount_snoc.
    rewrite calculateObserverRecipientCount_insert.
    - rewrite (IH Hl), length_fmap. lia.
    - apply eq_None_not_Some. rewrite selectAllObservers_keys. intros Hin.
      apply (Hs _ Hin). cbn. by apply list_elem_of_singleton. }
  split; [exact Hcount |]. rewrite Hcount. unfold checkboxFlags. cbn [checked].
  rewrite Nat.eqb_refl, Bool.andb_true_r.
  by destruct (observerCount students observers).
Qed.

Lemma initializeSelectedObservers_snoc students (s : Student) :
  initializeSelectedObservers (students ++ [s])
  = <[id s := []]> (initializeSelectedObservers students).
Proof. unfold initializeSelectedObservers. by rewrite fold_left_app. Qed.

Lemma initializeSelectedObservers_lookup students (k : string) :
  initializeSelectedObservers students !! k
  = if decide (k ∈ id <$> students) then Some [] else None.
Proof.
  induction students as [| s l IH] using rev_ind.
  - unfold initializeSelectedObservers. cbn. rewrite lookup_empty.
    by rewrite decide_False by apply not_elem_of_nil.
  - rewrite initializeSelectedObservers_snoc, fmap_app. cbn.
    destruct (decide (id s = k)) as [-> | Hne].
    + rewrite lookup_insert_eq, decide_True; [done |].
      apply elem_of_app. right. by apply list_elem_of_singleton.
    + rewrite lookup_insert_ne, IH by done.
      repeat case_decide; try done;
        rewrite elem_of_app, list_elem_of_singleton in *; intuition congruence.
Qed.

(** X24: after [initializeSelectedObservers] no observer is selected and
    the keys are the ids of the students; when the ids are distinct there
    are as many keys as students, so the checkbox of the students, fed
    with the keys, is checked and not indeterminate unless there is no
    student. *)
Theorem initializeSelectedObservers_keys students :
  calculateObserverRecipientCount (initializeSelectedObservers students) = 0%nat
  ∧ (∀ k, k ∈ Object_keys (initializeSelectedObservers students)
          ↔ k ∈ id <$> students)
  ∧ (NoDup (id <$> students) →
     length (Object_keys (initializeSelectedObservers students)) = length students
     ∧ checkboxFlags (length (Object_keys (initializeSelectedObservers students)))
         (length students)
       = {| indeterminate := false;
            disabled := (length students =? 0)%nat;
            checked := negb (length students =? 0)%nat |}).
Proof.
  assert (∀ k, k ∈ Object_keys (initializeSelectedObservers students)
               ↔ k ∈ id <$> students) as Hkeys.
  { intros k. unfold Object_keys. rewrite list_elem_of_fmap. split.
    - intros [[k' v] [-> Hkv%elem_of_map_to_list]]. cbn.
      rewrite initializeSelectedObservers_lookup in Hkv. by case_decide.
    - intros Hk. exists (k, []). split; [done |]. apply elem_of_map_to_list.
      by rewrite initializeSelectedObservers_lookup, decide_True. }
  split; [| split; [exact Hkeys |]].
  - rewrite calculateObserverRecipientCount_sum.
    assert (Forall (λ l, l = []) (Object_values (initializeSelectedObservers students)))
      as Hall.
    { apply Forall_forall. intros l [k Hk]%elem_of_Object_values.
      rewrite initializeSelectedObservers_lookup in Hk. case_decide; by simplify_eq. }
    induction Hall as [| l ls -> _ IH]; [done |]. cbn. exact IH.
  - intros Hnodup.
    assert (length (Object_keys (initializeSelectedObservers students))
            = length students) as Hlen.
    { rewrite <- (length_fmap id students). apply Permutation_length.
      apply NoDup_Permutation; [apply NoDup_fst_map_to_list | done | exact Hkeys]. }
    split; [exact Hlen |]. rewrite Hlen. unfold checkboxFlags, isLengthBetweenBoundaries.
    rewrite Nat.ltb_irrefl, Nat.eqb_refl, Bool.andb_false_r, Bool.andb_true_r.
    f_equal. by destruct (length students).
Qed.
End SelectedObservers.

Lemma selectAllObservers_count_witness :
  NoDup (MessageStudentsWho.id <$> sample_students)
  ∧ MessageStudentsWho.calculateObserverRecipientCount
      (MessageStudentsWho.selectAllObservers sample_students
         (MessageStudentsWho.observersByStudentID sample_enrollments))
    = 3%nat
  ∧ MessageStudentsWho.observerCount sample_students
      (MessageStudentsWho.observersByStudentID sample_enrollments)
    = 3%nat.
Proof.
  assert (NoDup (MessageStudentsWho.id <$> sample_students)) as Hnodup.
  { apply (bool_decide_unpack _). by vm_compute. }
  split; [exact Hnodup |].
  pose proof (proj1 (selectAllObservers_count sample_students
                       (MessageStudentsWho.observersByStudentID sample_enrollments)
                       Hnodup)) as Hcount.
  split; [rewrite Hcount |]; vm_compute; reflexivity.
Defined.

(** ** Toggling a selection *)

Section Toggle.
Import MessageStudentsWho.
Implicit Types (array : list string) (i x : string).

Lemma toggleSelection_absent i array :
  i ∉ array → toggleSelection i array = array ++ [i].
Proof.
  intros Hnotin. unfold toggleSelection.
  destruct (list_find _ array) as [[index y] |] eqn:Hfind; [| done].
  apply list_find_Some in Hfind as (Hy & -> & _).
  exfalso. apply Hnotin. by eapply list_elem_of_lookup_2.
Qed.

(** When the id is selected, the array is cut around its first
    occurrence. *)
Lemma toggleSelection_present i array :
  i ∈ array →
  ∃ before after,
    array = before ++ i :: after ∧ (i ∉ before)
    ∧ toggleSelection i array = before ++ after.
Proof.
  intros Hin. unfold toggleSelection.
  destruct (list_find _ array) as [[index y] |] eqn:Hfind.
  - apply list_find_Some in Hfind as (Hy & -> & Hfirst).
    exists (take index array), (drop (S index) array).
    split; [by rewrite take_drop_middle |]. split.
    + intros [j Hj]%list_elem_of_lookup.
      pose proof (lookup_lt_Some _ _ _ Hj) as Hlt. rewrite length_take in Hlt.
      rewrite lookup_take_lt in Hj by lia.
      apply (Hfirst j i Hj); [lia | done].
    + apply delete_take_drop.
  - apply list_find_None in Hfind. rewrite Forall_forall in Hfind.
    by destruct (Hfind i Hin).
Qed.

(** X25: toggling an id in a selection without repetitions gives a
    selection without repetitions in which the id is selected exactly
    when it was not, and every other id is selected exactly when it
    was. *)
Theorem toggleSelection_flips i array :
  NoDup array →
  NoDup (toggleSelection i array)
  ∧ (i ∈ toggleSelection i array ↔ i ∉ array)
  ∧ ∀ x, x ≠ i → (x ∈ toggleSelection i array ↔ x ∈ array).
Proof.
  intros Hnodup. destruct (decide (i ∈ array)) as [Hin | Hnotin].
  - destruct (toggleSelection_present i array Hin)
      as (before & after & -> & Hbefore & ->).
    apply NoDup_app in Hnodup as (Hb & Hdisj & Hafter).
    apply NoDup_cons in Hafter as [Hi Ha].
    split; [| split].
    + apply NoDup_app. split; [done |]. split; [| done].
      intros x Hx Hx'. apply (Hdisj x Hx). by right.
    + rewrite elem_of_app. split; [intros [? | ?]; done | done].
    + intros x Hne. rewrite !elem_of_app, elem_of_cons. intuition congruence.
  - rewrite toggleSelection_absent by done. split; [| split].
    + apply NoDup_app. split; [done |]. split; [| apply NoDup_singleton].
      intros x Hx ->%list_elem_of_singleton. done.
    + rewrite elem_of_app, list_elem_of_singleton. intuition.
    + intros x Hne. rewrite elem_of_app, list_elem_of_singleton. intuition.
Qed.

(** X26: toggling twice an id that was not selected gives the selection
    back; toggling twice an id that was selected, in a selection without
    repetitions, moves it to the end. *)
Theorem toggleSelection_twice i array :
  (i ∉ array → toggleSelection i (toggleSelection i array) = array)
  ∧ (NoDup array → i ∈ array →
     ∃ before after,
       array = before ++ i :: after
       ∧ toggleSelection i (toggleSelection i array) = before ++ after ++ [i]).
Proof.
  split.
  - intros Hnotin. rewrite (toggleSelection_absent i array) by done.
    assert (i ∈ array ++ [i]) as Hin
      by (apply elem_of_app; right; by apply list_elem_of_singleton).
    destruct (toggleSelection_present i _ Hin)
      as (before & after & Heq & Hbefore & ->).
    assert (before = array ∧ after = []) as [-> ->]; [| by rewrite app_nil_r].
    destruct after as [| a after _] using rev_ind.
    + by apply app_inj_tail in Heq as [-> _].
    + rewrite app_comm_cons, app_assoc in Heq.
      apply app_inj_tail in Heq as [-> ->].
      exfalso. apply Hnotin. apply elem_of_app. right. by left.
  - intros Hnodup Hin.
    destruct (toggleSelection_present i array Hin)
      as (before & after & -> & Hbefore & ->).
    exists before, after. split; [done |].
    apply NoDup_app in Hnodup as (_ & _ & [Hafter _]%NoDup_cons).
    rewrite toggleSelection_absent; [by rewrite <- app_assoc |].
    rewrite elem_of_app. intuition.
Qed.
End Toggle.

Lemma toggleSelection_flips_witness :
  NoDup ["100"; "101"; "102"]
  ∧ MessageStudentsWho.toggleSelection "101" ["100"; "101"; "102"] = ["100"; "102"]
  ∧ NoDup (MessageStudentsWho.toggleSelection "101" ["100"; "101"; "102"]).
Proof.
  assert (NoDup ["100"; "101"; "102"]) as Hnodup.
  { apply (bool_decide_unpack _). by vm_compute. }
  split; [exact Hnodup |]. split; [vm_compute; reflexivity |].
  exact (proj1 (toggleSelection_flips "101" ["100"; "101"; "102"] Hnodup)).
Defined.

(** ** The flags of a checkbox *)

(** X27: of the three flags of a checkbox at most one is set, and when
    none is set although no more is selected than there is, nothing is
    selected out of something. *)
Theorem checkboxFlags_exclusive (selectedLength totalLength : nat) :
  let flags := MessageStudentsWho.checkboxFlags selectedLength totalLength in
  (MessageStudentsWho.indeterminate flags = true →
   MessageStudentsWho.disabled flags = false ∧ MessageStudentsWho.checked flags = false)
  ∧ (MessageStudentsWho.disabled flags = true →
     MessageStudentsWho.checked flags = false)
  ∧ ((selectedLength ≤ totalLength)%nat →
     MessageStudentsWho.indeterminate flags = false →
     MessageStudentsWho.disabled flags = false →
     MessageStudentsWho.checked flags = false →
     selectedLength = 0%nat ∧ (0 < totalLength)%nat).
Proof.
  unfold MessageStudentsWho.checkboxFlags, MessageStudentsWho.isLengthBetweenBoundaries.
  cbn [MessageStudentsWho.indeterminate MessageStudentsWho.disabled
       MessageStudentsWho.checked].
  destruct (Nat.ltb_spec 0 selectedLength), (Nat.ltb_spec selectedLength totalLength),
    (Nat.eqb_spec totalLength 0), (Nat.ltb_spec 0 totalLength),
    (Nat.eqb_spec selectedLength totalLength); cbn; repeat split; intros;
    try discriminate; try lia.
Qed.

(** ** Sending *)

Section SendProperties.
Import MessageStudentsWho.

(** The loop of the set keeps what it has seen, adds each new element
    once, and repeats nothing. *)
Lemma uniqueValues_fold (xs : list string) : ∀ seen : list string,
  NoDup seen →
  let r := fold_left (λ seen x, if bool_decide (x ∈ seen) then seen else seen ++ [x])
             xs seen in
  NoDup r ∧ (∀ x, x ∈ r ↔ x ∈ seen ∨ x ∈ xs)
  ∧ (NoDup (seen ++ xs) → r = seen ++ xs).
Proof.
  induction xs as [| y xs IH]; intros seen Hseen; cbn [fold_left].
  - split; [done |]. split; [| by rewrite app_nil_r].
    intros x. rewrite elem_of_nil. tauto.
  - case_bool_decide as Hy.
    + destruct (IH seen Hseen) as (Hnodup & Hin & Hid). split; [done |]. split.
      * intros x. rewrite Hin, elem_of_cons. intuition congruence.
      * intros Hall. apply NoDup_app in Hall as (_ & Hdisj & _).
        destruct (Hdisj y Hy). by left.
    + assert (NoDup (seen ++ [y])) as Hseen'.
      { apply NoDup_app. split; [done |]. split; [| apply NoDup_singleton].
        by intros x Hx ->%list_elem_of_singleton. }
      destruct (IH _ Hseen') as (Hnodup & Hin & Hid). split; [done |]. split.
      * intros x. rewrite Hin, elem_of_app, list_elem_of_singleton, elem_of_cons.
        tauto.
      * intros Hall. rewrite <- app_assoc in Hid. by apply Hid.
Qed.

Lemma uniqueValues_spec (xs : list string) :
  NoDup (uniqueValues xs) ∧ (∀ x, x ∈ uniqueValues xs ↔ x ∈ xs)
  ∧ (NoDup xs → uniqueValues xs = xs).
Proof.
  destruct (uniqueValues_fold xs [] (NoDup_nil_2)) as (Hnodup & Hin & Hid).
  split; [done |]. split; [| exact Hid].
  intros x. unfold uniqueValues. rewrite Hin, elem_of_nil. tauto.
Qed.

Lemma elem_of_selected_observers (selectedObservers : gmap string (list string))
    (x : string) :
  x ∈ concat (Object_values selectedObservers)
  ↔ ∃ studentId observers,
      selectedObservers !! studentId = Some observers ∧ x ∈ observers.
Proof.
  rewrite list_elem_of_In, in_concat. split.
  - intros (l & Hl%list_elem_of_In%elem_of_Object_values & Hx%list_elem_of_In).
    destruct Hl as [k Hk]. by exists k, l.
  - intros (k & l & Hk & Hx). exists l. split; apply list_elem_of_In; [| done].
    apply elem_of_Object_values. by exists k.
Qed.

Context (trim : string → string).

(** X28: when the send button leads to [onSend], no upload is pending,
    the body is the trimmed message and is not empty, the recipients are
    not empty, none is repeated, and they are the selected students and
    the selected observers, in this order when none of them occurs twice;
    the attachment ids are left out rather than empty. *)
Theorem handleSendButton_sends (message subject' : string)
    (selectedStudents : list string) (selectedObservers : gmap string (list string))
    (pendingUploads : nat) (mediaUploadFile : option MediaFile)
    (attachments : list string) (args : SendMessageArgs) :
  handleSendButton trim message subject' selectedStudents selectedObservers
    pendingUploads mediaUploadFile attachments = Sends args →
  pendingUploads = 0%nat
  ∧ body args = trim message ∧ body args ≠ ""
  ∧ recipientsIds args ≠ [] ∧ NoDup (recipientsIds args)
  ∧ (∀ x, x ∈ recipientsIds args
          ↔ x ∈ selectedStudents
            ∨ ∃ studentId observers,
                selectedObservers !! studentId = Some observers ∧ x ∈ observers)
  ∧ (NoDup (selectedStudents ++ concat (Object_values selectedObservers)) →
     recipientsIds args = selectedStudents ++ concat (Object_values selectedObservers))
  ∧ attachmentIds args ≠ Some [].
Proof.
  unfold handleSendButton, isFormDataValid.
  destruct (Nat.ltb_spec 0 (String.length (trim message))) as [Hmsg | _];
    [| discriminate].
  destruct (Nat.ltb_spec 0
              (length selectedStudents
               + length (concat (Object_values selectedObservers))))
    as [Hrec | _]; [| discriminate].
  cbn [andb negb].
  destruct (Nat.ltb_spec 0 pendingUploads) as [_ | Hpending]; [discriminate |].
  intros [= <-]. cbn [body recipientsIds attachmentIds].
  destruct (uniqueValues_spec (selectedStudents ++ concat (Object_values selectedObservers)))
    as (Hnodup & Hin & Hid).
  split; [lia |]. split; [done |]. split.
  { intros Hempty. rewrite Hempty in Hmsg. cbn in Hmsg. lia. }
  split.
  { intros Hempty. rewrite <- length_app in Hrec.
    destruct (selectedStudents ++ concat (Object_values selectedObservers))
      as [| x l] eqn:Hl; [cbn in Hrec; lia |].
    assert (x ∈ uniqueValues (x :: l)) as Hx by (apply Hin; left).
    rewrite Hempty in Hx. by apply elem_of_nil in Hx. }
  split; [exact Hnodup |]. split.
  { intros x. by rewrite Hin, elem_of_app, elem_of_selected_observers. }
  split; [exact Hid |].
  destruct attachments; cbn; discriminate.
Qed.
End SendProperties.

Lemma handleSendButton_sends_witness :
  let selectedObservers : gmap string (list string) :=
    <["100" := ["200"; "201"]]> (<["101" := ["200"]]> ∅) in
  let outcome :=
    MessageStudentsWho.handleSendButton (λ s, s) "Please submit" "No submission"
      ["100"; "101"] selectedObservers 0 None [] in
  ∃ args,
    outcome = MessageStudentsWho.Sends args
    ∧ MessageStudentsWho.recipientsIds args ≠ []
    ∧ NoDup (MessageStudentsWho.recipientsIds args)
    ∧ length (MessageStudentsWho.recipientsIds args) = 4%nat.
Proof.
  intros selectedObservers outcome.
  destruct outcome as [| | args] eqn:Houtcome;
    [by vm_compute in Houtcome | by vm_compute in Houtcome |].
  exists args. split; [reflexivity |].
  pose proof (handleSendButton_sends (λ s, s) "Please submit" "No submission"
                ["100"; "101"] selectedObservers 0 None [] args Houtcome)
    as (_ & _ & _ & Hne & Hnodup & _).
  split; [exact Hne |]. split; [exact Hnodup |].
  vm_compute in Houtcome. by injection Houtcome as <-.
Defined.

(** ** Toggling an observer *)

Section ToggleObserver.
Import MessageStudentsWho.
Implicit Types (selectedObservers : gmap string (list string)).

Lemma calculateObserverRecipientCount_lookup selectedObservers (k : string)
    (l : list string) :
  selectedObservers !! k = Some l →
  calculateObserverRecipientCount selectedObservers
  = (length l + calculateObserverRecipientCount (delete k selectedObservers))%nat.
Proof.
  intros Hk. rewrite <- (insert_delete_id _ _ _ Hk) at 1.
  rewrite !calculateObserverRecipientCount_sum. unfold Object_values.
  by rewrite map_to_list_insert by apply lookup_delete_eq.
Qed.

(** X29: toggling an observer of a student that is a key changes the
    entry of this student only, and the number of selected observers by
    one: up when the observer was not selected for the student, down when
    it was; for a student that is not a key there is no result. *)
Theorem toggleObserverSelection_count (studentId observerId : string)
    selectedObservers (observers : list string) :
  selectedObservers !! studentId = Some observers →
  ∃ selectedObservers',
    toggleObserverSelection studentId observerId selectedObservers
    = Some selectedObservers'
    ∧ (∀ k, k ≠ studentId → selectedObservers' !! k = selectedObservers !! k)
    ∧ (observerId ∉ observers →
       calculateObserverRecipientCount selectedObservers'
       = S (calculateObserverRecipientCount selectedObservers))
    ∧ (observerId ∈ observers →
       S (calculateObserverRecipientCount selectedObservers')
       = calculateObserverRecipientCount selectedObservers).
Proof.
  intros Hk. unfold toggleObserverSelection. rewrite Hk. cbn.
  eexists. split; [reflexivity |]. split; [| split].
  - intros k Hne. by rewrite lookup_insert_ne.
  - intros Hnotin.
    rewrite (calculateObserverRecipientCount_lookup selectedObservers _ _ Hk).
    rewrite (calculateObserverRecipientCount_lookup (<[studentId := _]> _) studentId
               (toggleSelection observerId observers))
      by apply lookup_insert_eq.
    rewrite delete_insert_eq, toggleSelection_absent, length_app by done. cbn. lia.
  - intros Hin.
    rewrite (calculateObserverRecipientCount_lookup selectedObservers _ _ Hk).
    rewrite (calculateObserverRecipientCount_lookup (<[studentId := _]> _) studentId
               (toggleSelection observerId observers))
      by apply lookup_insert_eq.
    rewrite delete_insert_eq.
    destruct (toggleSelection_present _ _ Hin) as (before & after & -> & _ & ->).
    rewrite !length_app. cbn. lia.
Qed.

(** An unknown student: [indexOf] is called on [undefined]. *)
Lemma toggleObserverSelection_unknown (studentId observerId : string)
    selectedObservers :
  selectedObservers !! studentId = None →
  toggleObserverSelection studentId observerId selectedObservers = None.
Proof. intros Hk. unfold toggleObserverSelection. by rewrite Hk. Qed.
End ToggleObserver.

Lemma toggleObserverSelection_count_witness :
  let selectedObservers : gmap string (list string) :=
    <["100" := ["200"; "201"]]> (<["101" := []]> ∅) in
  selectedObservers !! "100" = Some ["200"; "201"]
  ∧ ∃ selectedObservers',
      MessageStudentsWho.toggleObserverSelection "100" "201" selectedObservers
      = Some selectedObservers'
      ∧ selectedObservers' !! "100" = Some ["200"]
      ∧ S (MessageStudentsWho.calculateObserverRecipientCount selectedObservers')
        = MessageStudentsWho.calculateObserverRecipientCount selectedObservers.
Proof.
  intros selectedObservers.
  assert (selectedObservers !! "100" = Some ["200"; "201"]) as Hk
    by (vm_compute; reflexivity).
  split; [exact Hk |].
  destruct (toggleObserverSelection_count "100" "201" selectedObservers _ Hk)
    as (selectedObservers' & Hrun & _ & _ & Hdown).
  exists selectedObservers'. split; [exact Hrun |]. split.
  - unfold MessageStudentsWho.toggleObserverSelection in Hrun. rewrite Hk in Hrun.
    cbn in Hrun. injection Hrun as <-. by rewrite lookup_insert_eq.
  - apply Hdown. set_solver.
Defined.
